(** * The image-compression backend: parameter resolution, the compression
      pipeline and the history store

    A shallow embedding of the Express handlers of the backend server
    ([/api/compress], [/api/compression/history],
    [/api/compression/history/:recordId], [/api/cleanup/:filename]) and of the
    JavaScript primitives they are written with.

    - JavaScript strings are [string]s; a character stands for the UTF-16 code
      unit of the same number, so the strings of the model are those whose
      code units are below 256.
    - Integer-valued JavaScript numbers (sizes, quality, page numbers,
      timestamps) are [Z]; [NaN] is the [None] of an [option Z].  A [Z] stands
      for the number exactly below 2^53 in absolute value, and a statement
      that depends on the value of a number read from a request says so.  The
      compression ratio is a binary64 value and is kept as a primitive
      [float].
    - The image codec ([sharp]) is an interface, [Sharp]: the handlers are
      defined and verified for every implementation of it.
    - The MongoDB collections and the uploads directory are finite maps; a
      handler is a function from the state before the request to the response
      and the state in which the response is sent. *)

From Stdlib Require Import ZArith String Ascii List Lia DecimalString.
From Stdlib Require Import DecimalPos DecimalN.
From Stdlib.Strings Require Import Byte.
From Stdlib Require Import PrimFloat FloatOps SpecFloat Uint63.
From stdpp Require Import base option gmap strings list sorting.

Local Open Scope string_scope.
Local Open Scope Z_scope.
Local Set Warnings "-register-all".

(** ** JavaScript primitives *)

Module JS.

(** [WhiteSpace] and [LineTerminator] code units below 256: TAB, LF, VT, FF,
    CR, SP and NBSP. *)
Definition is_whitespace (c : ascii) : bool :=
  let n := N_of_ascii c in
  existsb (N.eqb n) [9; 10; 11; 12; 13; 32; 160]%N.

Fixpoint trimStart (s : string) : string :=
  match s with
  | String c rest => if is_whitespace c then trimStart rest else s
  | EmptyString => s
  end.

(** The value of a character as a digit: [0-9] are 0..9, [a-z] and [A-Z] are
    10..35. *)
Definition digit_value (c : ascii) : option Z :=
  let n := Z.of_N (N_of_ascii c) in
  if (48 <=? n) && (n <=? 57) then Some (n - 48)
  else if (97 <=? n) && (n <=? 122) then Some (n - 87)
  else if (65 <=? n) && (n <=? 90) then Some (n - 55)
  else None.

(** The mathematical value of the longest prefix of [s] made of digits of
    the radix, [acc] being the value read so far ([None]: no digit yet). *)
Fixpoint radix_prefix (radix : Z) (s : string) (acc : option Z) : option Z :=
  match s with
  | String c rest =>
      match digit_value c with
      | Some d =>
          if d <? radix
          then radix_prefix radix rest (Some (radix * default 0 acc + d))
          else acc
      | None => acc
      end
  | EmptyString => acc
  end.

(** [parseInt(s)] with no radix argument: leading white space is skipped, a
    sign is read, a [0x]/[0X] prefix selects radix 16, and the longest
    prefix of digits is the value; [None] is [NaN].  The result is an exact
    integer; JavaScript rounds it to binary64, which changes neither its
    sign, nor whether it is zero, nor its position relative to an integer
    below 2^53. *)
Definition parseInt (s : string) : option Z :=
  let s1 := trimStart s in
  let '(sign, s2) :=
    match s1 with
    | String "-" rest => (-1, rest)
    | String "+" rest => (1, rest)
    | _ => (1, s1)
    end in
  let '(radix, s3) :=
    match s2 with
    | String "0" (String "x" rest) => (16, rest)
    | String "0" (String "X" rest) => (16, rest)
    | _ => (10, s2)
    end in
  match radix_prefix radix s3 None with
  | Some v => Some (sign * v)
  | None => None
  end.

(** [x || d] for a number [x]: [NaN], [0] and [-0] are falsy. *)
Definition or_default (x : option Z) (d : Z) : Z :=
  match x with
  | Some 0 => d
  | Some v => v
  | None => d
  end.

(** [String.prototype.toLowerCase] on code units below 256: [A-Z] and the
    Latin-1 capitals (U+00C0..U+00DE except the multiplication sign U+00D7)
    move up by 32. *)
Definition lower_char (c : ascii) : ascii :=
  let n := N_of_ascii c in
  if ((65 <=? n) && (n <=? 90))%N
     || ((192 <=? n) && (n <=? 222) && negb (n =? 215))%N
  then ascii_of_N (n + 32)
  else c.

Fixpoint toLowerCase (s : string) : string :=
  match s with
  | String c rest => String (lower_char c) (toLowerCase rest)
  | EmptyString => EmptyString
  end.

(** [Array.prototype.includes] on an array of strings. *)
Definition includes (xs : list string) (x : string) : bool :=
  existsb (String.eqb x) xs.

(** Decimal digits of a non-negative integer. *)
Definition digits (n : Z) : string :=
  NilZero.string_of_uint (N.to_uint (Z.to_N n)).

Fixpoint zeros (k : nat) : string :=
  match k with
  | O => ""
  | S k' => String "0" (zeros k')
  end.

(** [n / 10^f] written with exactly [f] fraction digits. *)
Definition fixed_digits (f : nat) (n : Z) : string :=
  let ds := digits n in
  let ds := zeros (S f - String.length ds) ++ ds in
  let k := (String.length ds - f)%nat in
  match f with
  | O => ds
  | _ => substring 0 k ds ++ "." ++ substring k f ds
  end.

(** The integer nearest to [m * 2^e * 10^f], the larger one on a tie. *)
Definition scaled_round (f : nat) (m : positive) (e : Z) : Z :=
  let v := Z.pos m * 10 ^ Z.of_nat f in
  if 0 <=? e then v * 2 ^ e
  else (2 * v + 2 ^ (- e)) / 2 ^ (1 - e).

(** [Number.prototype.toFixed(f)]: the nearest multiple of [10^-f] to the
    exact value of the binary64 number, ties away from zero, written with
    [f] fraction digits.  Values of magnitude 10^21 and more, which
    JavaScript writes in exponent notation, are outside the domain of this
    definition (a ratio of two sizes below 2^53 is far from them). *)
Definition toFixed (f : nat) (x : float) : string :=
  match Prim2SF x with
  | S754_nan => "NaN"
  | S754_infinity s => if s then "-Infinity" else "Infinity"
  | S754_zero _ => fixed_digits f 0
  | S754_finite s m e =>
      (if s then "-" else "") ++ fixed_digits f (scaled_round f m e)
  end.

(** An integer-valued number as a binary64 value (exact below 2^53). *)
Definition of_Z (z : Z) : float :=
  match z with
  | Z0 => PrimFloat.zero
  | Zpos _ => PrimFloat.of_uint63 (Uint63.of_Z z)
  | Zneg p => PrimFloat.opp (PrimFloat.of_uint63 (Uint63.of_Z (Zpos p)))
  end.

(** The digits at the head of a string and what follows them. *)
Fixpoint span_digits (s : string) : string * string :=
  match s with
  | String c rest =>
      let n := N_of_ascii c in
      if ((48 <=? n) && (n <=? 57))%N
      then let '(ds, tl) := span_digits rest in (String c ds, tl)
      else ("", s)
  | EmptyString => ("", "")
  end.

Definition digits_value (ds : string) : Z :=
  default 0 (radix_prefix 10 ds None).

(** [parseFloat(s)] on decimal literals without an exponent part (the
    outputs of [toFixed]): white space, a sign, then [Infinity] or digits
    with an optional fraction; anything else is [NaN].  The value is the
    binary64 number nearest to the literal: the quotient of two integers
    that binary64 holds exactly, rounded once by the division. *)
Definition parseFloat (s : string) : float :=
  let s1 := trimStart s in
  let '(neg, s2) :=
    match s1 with
    | String "-" rest => (true, rest)
    | String "+" rest => (false, rest)
    | _ => (false, s1)
    end in
  let signed (x : float) := if neg then PrimFloat.opp x else x in
  if String.prefix "Infinity" s2 then signed PrimFloat.infinity
  else
    let '(ip, tl) := span_digits s2 in
    let fp := match tl with
              | String "." rest => fst (span_digits rest)
              | _ => ""
              end in
    if (String.length ip + String.length fp =? 0)%nat then PrimFloat.nan
    else
      signed (PrimFloat.div (of_Z (digits_value (ip ++ fp)))
                            (of_Z (10 ^ Z.of_nat (String.length fp)))).

(** [String.prototype.split] with a separator of one character: the pieces
    between its occurrences, empty ones included. *)
Fixpoint split (sep : ascii) (s : string) : list string :=
  match s with
  | EmptyString => [""]
  | String c rest =>
      if Ascii.eqb c sep then "" :: split sep rest
      else match split sep rest with
           | piece :: pieces => String c piece :: pieces
           | [] => [String c ""]
           end
  end.

(** [Array.prototype.pop] on the pieces of a [split]: the last one. *)
Definition pop (pieces : list string) : string := List.last pieces "".

(** [String.prototype.startsWith]. *)
Definition startsWith (s prefix : string) : bool := String.prefix prefix s.

(** [String(n)] for an integer-valued number of magnitude below 10^21: its
    decimal digits, after a minus sign when negative. *)
Definition of_int (n : Z) : string :=
  if n <? 0 then "-" ++ digits (- n) else digits n.

End JS.

(** ** JSON values and responses *)

(** What [res.json] serialises.  [JNum] and [JDouble] are both JSON numbers:
    the first an integer-valued one, the second a binary64 value.  [JDate t]
    is a [Date] of time value [t] (milliseconds), which is written as the
    string [toISOString()] gives for it. *)
Inductive json : Type :=
| JNull
| JBool (b : bool)
| JNum (n : Z)
| JDouble (x : float)
| JStr (s : string)
| JDate (t : Z)
| JArr (items : list json)
| JObj (fields : list (string * json)).

Definition is_number (v : json) : bool :=
  match v with
  | JNum _ | JDouble _ => true
  | _ => false
  end.

Fixpoint assoc (k : string) (fields : list (string * json)) : option json :=
  match fields with
  | (k', v) :: rest => if String.eqb k k' then Some v else assoc k rest
  | [] => None
  end.

(** The member [k] of a JSON object. *)
Definition field (k : string) (v : json) : option json :=
  match v with
  | JObj fields => assoc k fields
  | _ => None
  end.

Record Response : Type := mkResponse { status : Z; body : json }.

(** [res.json(b)] and [res.status(c).json(b)]. *)
Definition res_json (b : json) : Response := mkResponse 200 b.
Definition res_status_json (c : Z) (b : json) : Response := mkResponse c b.

(** ** Results of calls that may throw *)

Inductive outcome (A : Type) : Type :=
| Ok (a : A)
| Throw (message : string).
Arguments Ok {A} a.
Arguments Throw {A} message.

Definition and_then {A B : Type} (o : outcome A) (k : A -> outcome B) : outcome B :=
  match o with
  | Ok a => k a
  | Throw msg => Throw msg
  end.

Notation "'let?' x ':=' o 'in' k" := (and_then o (fun x => k))
  (at level 10, x pattern, o at level 100, k at level 200).

(** ** The image codec ([sharp]) *)

Definition Buffer : Type := list Byte.byte.

Record Metadata : Type := mkMetadata { width : Z; height : Z }.

Inductive Fit : Type := inside | fill.

(** The argument of [resize]: a dimension is [null] ([None]) or a number,
    itself [NaN] ([Some None]) or an integer. *)
Record ResizeOptions : Type := mkResizeOptions {
  resize_width : option (option Z);
  resize_height : option (option Z);
  withoutEnlargement : bool;
  fit : Fit
}.

(** The output selected on a pipeline before [toBuffer]. *)
Inductive OutputOptions : Type :=
| jpeg (quality : Z) (mozjpeg : bool)
| png (compressionLevel : Z)
| webp (quality : Z)
| avif (quality : Z).

(** The codec as the handlers use it.  [sharp b] is the pipeline over the
    input [b]; [metadata], [toBuffer] and [toFile] are the awaited calls, which
    may reject; [resize] may throw on its options.  [toBuffer p o] is
    [p.jpeg(..).toBuffer()] (or [png], [webp], [avif]).  [toFile p path] is
    [p.toFile(path)]: the pipeline's output in the format of the path's
    extension, given as the bytes that end up in the file. *)
Class Sharp : Type := {
  pipeline : Type;
  sharp : Buffer -> pipeline;
  metadata : pipeline -> outcome Metadata;
  resize : pipeline -> ResizeOptions -> outcome pipeline;
  toBuffer : pipeline -> OutputOptions -> outcome Buffer;
  toFile : pipeline -> string -> outcome Buffer
}.

(** ** The data model *)

Record CompressionStats : Type := mkCompressionStats {
  totalCompressions : Z;
  totalSizeSaved : Z;
  lastCompression : option Z
}.

(** A document of the [User] collection (its [_id] is its key). *)
Record User : Type := mkUser {
  username : string;
  email : string;
  password : string;
  role : string;
  compressionStats : CompressionStats;
  user_createdAt : Z
}.

Record Dimensions : Type := mkDimensions {
  original : Metadata;
  compressed : Metadata
}.

(** A document of the [CompressionHistory] collection (its [_id] is its
    key). *)
Record CompressionHistory : Type := mkCompressionHistory {
  userId : string;
  originalFilename : string;
  compressedFilename : string;
  originalSize : Z;
  compressedSize : Z;
  compressionRatio : float;
  format : string;
  quality : Z;
  dimensions : Dimensions;
  downloadUrl : string;
  createdAt : Z
}.

(** The persistent state: the two collections by [_id], and the files of the
    uploads directory by name. *)
Record State : Type := mkState {
  users : gmap string User;
  history : gmap string CompressionHistory;
  uploads : gmap string Buffer
}.

(** The verified token's payload, [req.user]. *)
Record Identity : Type := mkIdentity {
  jwt_userId : string;
  jwt_username : string;
  jwt_email : string;
  jwt_role : string
}.

(** ** Handlers: state passing with exceptions *)

Definition Handler (A : Type) : Type := State -> outcome A * State.

Definition ret {A : Type} (a : A) : Handler A := fun s => (Ok a, s).

Definition bind {A B : Type} (m : Handler A) (k : A -> Handler B) : Handler B :=
  fun s =>
    match m s with
    | (Ok a, s') => k a s'
    | (Throw msg, s') => (Throw msg, s')
    end.

(** A call into the codec: it does not touch the state. *)
Definition await {A : Type} (o : outcome A) : Handler A := fun s => (o, s).

Definition gets {A : Type} (f : State -> A) : Handler A := fun s => (Ok (f s), s).

Definition modify (f : State -> State) : Handler unit := fun s => (Ok tt, f s).

Notation "'let*' x ':=' m 'in' k" := (bind m (fun x => k))
  (at level 10, x pattern, m at level 100, k at level 200).
Notation "m ';;' k" := (bind m (fun _ => k))
  (at level 100, k at level 200, right associativity).

(** [try { body } catch (error) { respond(error.message) }]. *)
Definition try_catch (body : Handler Response) (respond : string -> Response)
  : State -> Response * State :=
  fun s =>
    match body s with
    | (Ok r, s') => (r, s')
    | (Throw msg, s') => (respond msg, s')
    end.

(** *** The file system under [uploadsDir] *)

Definition existsSync (name : string) : Handler bool :=
  gets (fun s => bool_decide (is_Some (uploads s !! name))).

Definition unlinkSync (name : string) : Handler unit :=
  modify (fun s => mkState (users s) (history s) (delete name (uploads s))).

Definition writeFile (name : string) (data : Buffer) : Handler unit :=
  modify (fun s => mkState (users s) (history s) (<[name := data]> (uploads s))).

(** *** The collections *)

(** [doc.save()] of a new document: [_id] is unique in a collection. *)
Definition save (id : string) (doc : CompressionHistory) : Handler unit :=
  fun s =>
    match history s !! id with
    | Some _ => (Throw "E11000 duplicate key error", s)
    | None => (Ok tt, mkState (users s) (<[id := doc]> (history s)) (uploads s))
    end.

(** [User.findByIdAndUpdate(id, {$inc: .., $set: ..})] for the update of the
    compression handler; no document with that [_id]: no change. *)
Definition inc_stats (savings now : Z) (u : User) : User :=
  let st := compressionStats u in
  mkUser (username u) (email u) (password u) (role u)
    (mkCompressionStats (totalCompressions st + 1)
                        (totalSizeSaved st + savings)
                        (Some now))
    (user_createdAt u).

Definition findByIdAndUpdate (id : string) (savings now : Z) : Handler unit :=
  modify (fun s => mkState (alter (inc_stats savings now) id (users s))
                           (history s) (uploads s)).

(** What the database layer makes of a string given where an [ObjectId] is
    expected: [Ok tt] for a well-formed one, and for any other string the
    [CastError] it throws, with its message. *)
Class ObjectIds : Type := {
  castObjectId : string -> outcome unit
}.

(** [CompressionHistory.findOne({_id: id, userId: user})].  The filter is
    cast before the query runs, and a string that is no [ObjectId] makes the
    call throw.  The keys of the collection are [ObjectId]s: a string that is
    one of them has passed the cast. *)
Definition findOne {OI : ObjectIds} (id user : string)
  : Handler (option CompressionHistory) :=
  fun s =>
    match history s !! id with
    | Some r => (Ok (if String.eqb (userId r) user then Some r else None), s)
    | None =>
        match castObjectId id with
        | Ok _ => (Ok None, s)
        | Throw message => (Throw message, s)
        end
    end.

Definition findByIdAndDelete (id : string) : Handler unit :=
  modify (fun s => mkState (users s) (delete id (history s)) (uploads s)).

(** The first document of the collection that the filter
    [{compressedFilename: filename, userId: user}] selects. *)
Definition matching (filename user : string) (h : gmap string CompressionHistory)
  : option (string * CompressionHistory) :=
  List.find (fun '(_, r) => String.eqb (compressedFilename r) filename
                            && String.eqb (userId r) user)
            (map_to_list h).

Definition findOneAndDelete (filename user : string) : Handler unit :=
  modify (fun s =>
            match matching filename user (history s) with
            | Some (id, _) => mkState (users s) (delete id (history s)) (uploads s)
            | None => s
            end).

(** ** Requests *)

(** The file of a multipart upload, kept in memory. *)
Record File : Type := mkFile {
  buffer : Buffer;
  originalname : string;
  mimetype : string
}.

(** [req.file.size]: the length of the buffer. *)
Definition size (f : File) : Z := Z.of_nat (List.length (buffer f)).

(** The text fields of [req.body]; [None] is an absent field. *)
Record CompressBody : Type := mkCompressBody {
  raw_quality : option string;
  raw_format : option string;
  raw_width : option string;
  raw_height : option string;
  raw_maintainAspectRatio : option string
}.

Record CompressRequest : Type := mkCompressRequest {
  req_user : option Identity;
  req_file : option File;
  req_body : CompressBody
}.

(** What a request draws from outside: [uuidv4()], the [_id] of a new
    document, and [new Date()] (in milliseconds). *)
Record Fresh : Type := mkFresh {
  uuid : string;
  objectId : string;
  now : Z
}.

(** [req.query] of the history listing. *)
Record HistoryQuery : Type := mkHistoryQuery {
  raw_page : option string;
  raw_limit : option string;
  raw_sortBy : option string;
  raw_sortOrder : option string
}.

(** ** Parameter resolution *)

(** [Math.min(100, Math.max(10, parseInt(quality) || 80))], [quality] being
    the number 80 when the field is absent. *)
Definition qualityValue (quality : option string) : Z :=
  let parsed := match quality with
                | Some s => JS.parseInt s
                | None => Some 80
                end in
  Z.min 100 (Z.max 10 (JS.or_default parsed 80)).

Definition validFormats : list string := ["jpeg"; "jpg"; "png"; "webp"; "avif"].

Definition outputFormat (format : option string) : string :=
  let format := default "jpeg" format in
  if JS.includes validFormats (JS.toLowerCase format)
  then JS.toLowerCase format
  else "jpeg".

(** [`${uuidv4()}.${outputFormat === 'jpg' ? 'jpeg' : outputFormat}`]. *)
Definition fileName (uuid outputFormat : string) : string :=
  uuid ++ "." ++ (if String.eqb outputFormat "jpg" then "jpeg" else outputFormat).

(** A string in a condition: absent and empty are falsy. *)
Definition truthy (s : option string) : bool :=
  match s with
  | Some s => negb (String.eqb s "")
  | None => false
  end.

Definition resizeOptions (b : CompressBody) : ResizeOptions :=
  mkResizeOptions
    (if truthy (raw_width b) then Some (JS.parseInt (default "" (raw_width b))) else None)
    (if truthy (raw_height b) then Some (JS.parseInt (default "" (raw_height b))) else None)
    true
    (if String.eqb (default "true" (raw_maintainAspectRatio b)) "true"
     then inside else fill).

(** [Math.floor(9 - (qualityValue / 11.11))].  For a quality between 10 and
    100 the exact value [9 - 100 q / 1111] is at least [1/1111] away from
    every integer, so the rounding of the binary64 operations does not move
    the floor. *)
Definition pngQuality (qualityValue : Z) : Z := 9 + (- 100 * qualityValue) / 1111.

(** The [switch (outputFormat)] of the handler. *)
Definition encoder (outputFormat : string) (qualityValue : Z) : OutputOptions :=
  if String.eqb outputFormat "jpeg" || String.eqb outputFormat "jpg"
  then jpeg qualityValue true
  else if String.eqb outputFormat "png"
  then png (Z.max 0 (Z.min 9 (pngQuality qualityValue)))
  else if String.eqb outputFormat "webp" then webp qualityValue
  else if String.eqb outputFormat "avif" then avif qualityValue
  else jpeg qualityValue false.

(** ** Metrics *)

(** [(originalSize - compressedSize) / originalSize * 100] in binary64. *)
Definition ratio (originalSize compressedSize : Z) : float :=
  PrimFloat.mul
    (PrimFloat.div (JS.of_Z (originalSize - compressedSize)) (JS.of_Z originalSize))
    (JS.of_Z 100).

(** [Math.floor(Math.log(bytes) / Math.log(k))] for [k = 1024]: [NaN]
    ([None]) for a negative argument, else the integer logarithm.  The
    quotient of the two binary64 logarithms is exact at the powers of 1024
    and within 2^-50 of the real quotient elsewhere, which for an integer
    argument below 2^40 is further than that from the next integer; the
    sizes of the handlers are below 2^24, uploads being capped at 10 MB. *)
Definition floor_log1024 (bytes : Z) : option Z :=
  if bytes <? 0 then None else Some (Z.log2 bytes / 10).

(** [String(parseFloat(s))] for an output [s] of [toFixed(2)]: the shortest
    decimal of the number, which is [s] without its trailing fraction zeros
    (and without the sign of a zero). *)
Definition shortest (s : string) : string :=
  let n := String.length s in
  if String.eqb s "-0.00" then "0"
  else if String.eqb (substring (n - 3) 3 s) ".00" then substring 0 (n - 3) s
  else if String.eqb (substring (n - 1) 1 s) "0"
          && String.eqb (substring (n - 3) 1 s) "."
  then substring 0 (n - 1) s
  else s.

(** The server's [formatFileSize]. *)
Definition formatFileSize (bytes : Z) : string :=
  if bytes =? 0 then "0 Bytes"
  else
    let k := 1024 in
    let sizes := ["Bytes"; "KB"; "MB"] in
    match floor_log1024 bytes with
    | Some i =>
        shortest (JS.toFixed 2 (PrimFloat.div (JS.of_Z bytes) (JS.of_Z (k ^ i))))
        ++ " " ++ nth (Z.to_nat i) sizes "undefined"
    | None =>
        (* [bytes / Math.pow(k, NaN)] is [NaN] and [sizes[NaN]] is [undefined] *)
        shortest (JS.toFixed 2 PrimFloat.nan) ++ " " ++ "undefined"
    end.

(** ** [POST /api/compress] *)

Definition metadata_json (m : Metadata) : json :=
  JObj [("width", JNum (width m)); ("height", JNum (height m))].

(** [new CompressionHistory({..})] of the handler. *)
Definition new_record (user : Identity) (file : File) (fileName : string)
    (originalSize compressedSize : Z) (compressionRatio : string)
    (outputFormat : string) (qualityValue : Z)
    (meta compressedDimensions : Metadata) (now : Z) : CompressionHistory :=
  mkCompressionHistory
    (jwt_userId user)
    (originalname file)
    fileName
    originalSize
    compressedSize
    (JS.parseFloat compressionRatio)
    outputFormat
    qualityValue
    (mkDimensions meta compressedDimensions)
    ("/uploads/" ++ fileName)
    now.

(** The object of the handler's [res.json]; [recordId] is
    [compressionRecord?._id], left out of the JSON text when undefined. *)
Definition compress_result (fileName : string) (originalSize compressedSize : Z)
    (compressionRatio : string) (savings : Z) (outputFormat : string)
    (meta compressedDimensions : Metadata) (recordId : option string) : json :=
  JObj ([("success", JBool true);
         ("fileName", JStr fileName);
         ("originalSize", JNum originalSize);
         ("compressedSize", JNum compressedSize);
         ("compressionRatio", JStr compressionRatio);
         ("savings", JStr (formatFileSize savings));
         ("downloadUrl", JStr ("/uploads/" ++ fileName));
         ("format", JStr outputFormat);
         ("dimensions",
          JObj [("original", metadata_json meta);
                ("compressed", metadata_json compressedDimensions)])]
        ++ match recordId with
           | Some id => [("recordId", JStr id)]
           | None => []
           end)%list.

Section Compress.

Context {SH : Sharp}.

(** The codec calls of the handler, up to the encoded buffer: the source's
    metadata, the dimensions reported as the compressed ones, and the
    encoded bytes. *)
Definition encode (file : File) (b : CompressBody)
  : outcome (Metadata * Metadata * Buffer) :=
  let qualityValue := qualityValue (raw_quality b) in
  let outputFormat := outputFormat (raw_format b) in
  let sharpInstance := sharp (buffer file) in
  let? meta := metadata sharpInstance in
  let? (sharpInstance, compressedDimensions) :=
    (if truthy (raw_width b) || truthy (raw_height b)
     then
       let? sharpInstance := resize sharpInstance (resizeOptions b) in
       let? newMetadata := metadata sharpInstance in
       Ok (sharpInstance, newMetadata)
     else Ok (sharpInstance, meta)) in
  let? compressedBuffer :=
    toBuffer sharpInstance (encoder outputFormat qualityValue) in
  Ok (meta, compressedDimensions, compressedBuffer).

(** The body of the handler's [try]. *)
Definition compress_body (req : CompressRequest) (rnd : Fresh) : Handler Response :=
  match req_file req with
  | None => ret (res_status_json 400 (JObj [("error", JStr "No image file provided")]))
  | Some file =>
      let b := req_body req in
      let qualityValue := qualityValue (raw_quality b) in
      let outputFormat := outputFormat (raw_format b) in
      let fileName := fileName (uuid rnd) outputFormat in
      let* (meta, compressedDimensions, compressedBuffer) :=
        await (encode file b) in
      let originalSize := size file in
      let compressedSize := Z.of_nat (List.length compressedBuffer) in
      let compressionRatio := JS.toFixed 2 (ratio originalSize compressedSize) in
      let savings := originalSize - compressedSize in
      let* written := await (toFile (sharp compressedBuffer) fileName) in
      writeFile fileName written;;
      let* compressionRecord :=
        (match req_user req with
         | Some user =>
             save (objectId rnd)
               (new_record user file fileName originalSize compressedSize
                  compressionRatio outputFormat qualityValue
                  meta compressedDimensions (now rnd));;
             findByIdAndUpdate (jwt_userId user) savings (now rnd);;
             ret (Some (objectId rnd))
         | None => ret None
         end) in
      ret (res_json
             (compress_result fileName originalSize compressedSize
                compressionRatio savings outputFormat
                meta compressedDimensions compressionRecord))
  end.

Definition compress (req : CompressRequest) (rnd : Fresh)
  : State -> Response * State :=
  try_catch (compress_body req rnd)
    (fun message =>
       res_status_json 500
         (JObj [("error", JStr "Compression failed"); ("message", JStr message)])).

End Compress.

(** ** [GET /api/compression/history] *)

Definition validSortFields : list string :=
  ["createdAt"; "originalSize"; "compressedSize"; "compressionRatio"].

(** The order of two documents on the field [sortBy]. *)
Definition key_le (sortBy : string) (a b : CompressionHistory) : bool :=
  if String.eqb sortBy "originalSize" then originalSize a <=? originalSize b
  else if String.eqb sortBy "compressedSize" then compressedSize a <=? compressedSize b
  else if String.eqb sortBy "compressionRatio"
  then PrimFloat.leb (compressionRatio a) (compressionRatio b)
  else createdAt a <=? createdAt b.

Definition precedes (sortBy : string) (sortOrder : Z) (a b : CompressionHistory) : bool :=
  if sortOrder =? 1 then key_le sortBy a b else key_le sortBy b a.

Fixpoint insert_sorted (le : CompressionHistory -> CompressionHistory -> bool)
    (x : string * CompressionHistory) (l : list (string * CompressionHistory))
  : list (string * CompressionHistory) :=
  match l with
  | [] => [x]
  | y :: rest => if le (snd x) (snd y) then x :: l else y :: insert_sorted le x rest
  end.

(** [.sort({[sortBy]: sortOrder})]: the documents in the order of the field.
    Where two documents have the same value the database is free to return
    them in either order, and to choose anew for every query; here they keep
    the order of the collection.  With values that are pairwise different
    the order is the only one there is. *)
Definition sort (sortBy : string) (sortOrder : Z) (l : list (string * CompressionHistory))
  : list (string * CompressionHistory) :=
  List.fold_right (insert_sorted (precedes sortBy sortOrder)) [] l.

(** The documents that [{userId: user}] selects. *)
Definition owned (user : string) (h : gmap string CompressionHistory)
  : list (string * CompressionHistory) :=
  List.filter (fun '(_, r) => String.eqb (userId r) user) (map_to_list h).

Definition find (user sortBy : string) (sortOrder skip limit : Z)
  : Handler (list (string * CompressionHistory)) :=
  gets (fun s =>
          firstn (Z.to_nat limit)
            (skipn (Z.to_nat skip) (sort sortBy sortOrder (owned user (history s))))).

Definition countDocuments (user : string) : Handler Z :=
  gets (fun s => Z.of_nat (List.length (owned user (history s)))).

(** A document as [find(..).select('-userId')] returns it: every path but
    [userId], the date as a [Date], and the version key [__v] that [save]
    sets to 0 on a new document. *)
Definition history_json (d : string * CompressionHistory) : json :=
  let '(id, r) := d in
  JObj [("_id", JStr id);
        ("originalFilename", JStr (originalFilename r));
        ("compressedFilename", JStr (compressedFilename r));
        ("originalSize", JNum (originalSize r));
        ("compressedSize", JNum (compressedSize r));
        ("compressionRatio", JDouble (compressionRatio r));
        ("format", JStr (format r));
        ("quality", JNum (quality r));
        ("dimensions",
         JObj [("original", metadata_json (original (dimensions r)));
               ("compressed", metadata_json (compressed (dimensions r)))]);
        ("downloadUrl", JStr (downloadUrl r));
        ("createdAt", JDate (createdAt r));
        ("__v", JNum 0)].

(** [parseInt] of a query parameter; an absent one is [undefined], which
    [parseInt] reads as the string of that name. *)
Definition parseInt_param (v : option string) : option Z :=
  JS.parseInt (default "undefined" v).

(** [Math.ceil(total / limit)] for integers below 2^53 and a positive
    [limit]. *)
Definition ceil_div (total limit : Z) : Z := - ((- total) / limit).

(** The four parameters as the handler resolves them. *)
Definition page_of (q : HistoryQuery) : Z :=
  JS.or_default (parseInt_param (raw_page q)) 1.

Definition limit_of (q : HistoryQuery) : Z :=
  JS.or_default (parseInt_param (raw_limit q)) 10.

Definition sortBy_of (q : HistoryQuery) : string :=
  if truthy (raw_sortBy q) then default "" (raw_sortBy q) else "createdAt".

Definition sortOrder_of (q : HistoryQuery) : Z :=
  if bool_decide (raw_sortOrder q = Some "asc") then 1 else -1.

Definition pagination_json (page limit total : Z) (sortBy : string) (sortOrder : Z)
  : json :=
  JObj [("page", JNum page);
        ("limit", JNum limit);
        ("total", JNum total);
        ("pages", JNum (ceil_div total limit));
        ("sortBy", JStr sortBy);
        ("sortOrder", JStr (if sortOrder =? 1 then "asc" else "desc"))].

Definition getHistory (q : HistoryQuery) (user : Identity)
  : State -> Response * State :=
  try_catch
    (let page := page_of q in
     let limit := limit_of q in
     let sortBy := sortBy_of q in
     let sortOrder := sortOrder_of q in
     if negb (JS.includes validSortFields sortBy)
     then ret (res_status_json 400 (JObj [("error", JStr "Invalid sortBy field")]))
     else if (page <? 1) || (limit <? 1)
     then ret (res_status_json 400
                 (JObj [("error", JStr "Page and limit must be positive integers")]))
     else
       let skip := (page - 1) * limit in
       let* history := find (jwt_userId user) sortBy sortOrder skip limit in
       let* total := countDocuments (jwt_userId user) in
       ret (res_json
              (JObj [("success", JBool true);
                     ("history", JArr (List.map history_json history));
                     ("pagination",
                      pagination_json page limit total sortBy sortOrder)])))
    (fun message =>
       res_status_json 500
         (JObj [("error", JStr "Failed to get compression history");
                ("message", JStr message)])).

(** ** [DELETE /api/compression/history/:recordId] *)

Definition deleteRecord {OI : ObjectIds} (recordId : string) (user : Identity)
  : State -> Response * State :=
  try_catch
    (let* record := findOne recordId (jwt_userId user) in
     match record with
     | None => ret (res_status_json 404 (JObj [("error", JStr "Record not found")]))
     | Some record =>
         let filePath := compressedFilename record in
         let* present := existsSync filePath in
         (if present then unlinkSync filePath else ret tt);;
         findByIdAndDelete recordId;;
         ret (res_json
                (JObj [("success", JBool true);
                       ("message", JStr "Compression record deleted successfully")]))
     end)
    (fun message =>
       res_status_json 500
         (JObj [("error", JStr "Failed to delete record"); ("message", JStr message)])).

(** ** [DELETE /api/cleanup/:filename]

    The handler for a [filename] that is one path segment, for which
    [path.join(uploadsDir, filename)] is the entry of that name in the
    uploads directory.  (Any other name - one with a slash, [.] or [..] - is
    resolved by [path.join] to another path, inside or outside the
    directory.) *)

Definition cleanup (filename : string) (user : Identity)
  : State -> Response * State :=
  try_catch
    (let filePath := filename in
     findOneAndDelete filename (jwt_userId user);;
     let* present := existsSync filePath in
     if present
     then
       unlinkSync filePath;;
       ret (res_json (JObj [("success", JBool true);
                            ("message", JStr "File deleted successfully")]))
     else ret (res_status_json 404 (JObj [("error", JStr "File not found")])))
    (fun message =>
       res_status_json 500
         (JObj [("error", JStr "Cleanup failed"); ("message", JStr message)])).

(** ** A small codec

    An instance of [Sharp] on which the handlers run: an image is a header of
    four bytes (format tag, quality knob, width, height) followed by a payload
    whose length grows with the area and the knob.  Like [sharp], its
    [metadata] reads the header of the pipeline's input, its [resize] checks
    the options and applies at output, and its [toFile] encodes for the
    extension of the path with the default options of that format. *)

Module Reference.

Record pipe : Type := mkPipe {
  input : Buffer;
  resizing : option ResizeOptions
}.

Definition byte_of (z : Z) : Byte.byte :=
  default "000"%byte (Byte.of_N (Z.to_N z mod 256)).

Definition value_of (b : Byte.byte) : Z := Z.of_N (Byte.to_N b).

Definition tag (o : OutputOptions) : Z :=
  match o with
  | jpeg _ _ => 1
  | png _ => 2
  | webp _ => 3
  | avif _ => 4
  end.

Definition knob (o : OutputOptions) : Z :=
  match o with
  | jpeg q _ => q
  | png level => 100 - 10 * level
  | webp q => q
  | avif q => q
  end.

Definition decode (b : Buffer) : outcome Metadata :=
  match b with
  | t :: _ :: w :: h :: _ =>
      if (1 <=? value_of t) && (value_of t <=? 4)
         && (1 <=? value_of w) && (1 <=? value_of h)
      then Ok (mkMetadata (value_of w) (value_of h))
      else Throw "Input buffer contains unsupported image format"
  | _ => Throw "Input buffer contains unsupported image format"
  end.

Definition valid_dimension (d : option (option Z)) : bool :=
  match d with
  | None => true
  | Some (Some n) => 0 <? n
  | Some None => false
  end.

(** [a/b <= c/d] for positive denominators. *)
Definition frac_le (x y : Z * Z) : bool := fst x * snd y <=? fst y * snd x.

Definition frac_min (x y : Z * Z) : Z * Z := if frac_le x y then x else y.

(** [n] scaled by the fraction [s], rounded to the nearest integer. *)
Definition scaled (n : Z) (s : Z * Z) : Z := (2 * n * fst s + snd s) / (2 * snd s).

Definition box_factor (requested : option (option Z)) (source : Z) : Z * Z :=
  match requested with
  | Some (Some r) => (r, source)
  | _ => (1, 0)
  end.

(** The output size of a pipeline over an image of size [m]. *)
Definition output_size (m : Metadata) (r : option ResizeOptions) : Metadata :=
  match r with
  | None => m
  | Some o =>
      match fit o with
      | inside =>
          let fw := box_factor (resize_width o) (width m) in
          let fh := box_factor (resize_height o) (height m) in
          let s := match resize_width o, resize_height o with
                   | None, None => (1, 1)
                   | None, _ => fh
                   | _, None => fw
                   | _, _ => frac_min fw fh
                   end in
          let s := if withoutEnlargement o then frac_min s (1, 1) else s in
          mkMetadata (Z.max 1 (scaled (width m) s)) (Z.max 1 (scaled (height m) s))
      | fill =>
          let w := match resize_width o with Some (Some r) => r | _ => width m end in
          let h := match resize_height o with Some (Some r) => r | _ => height m end in
          if withoutEnlargement o
          then mkMetadata (Z.min w (width m)) (Z.min h (height m))
          else mkMetadata w h
      end
  end.

Definition render (p : pipe) (o : OutputOptions) : outcome Buffer :=
  let? m := decode (input p) in
  let out := output_size m (resizing p) in
  Ok ([byte_of (tag o); byte_of (knob o); byte_of (width out); byte_of (height out)]
      ++ repeat "042"%byte (Z.to_nat (width out * height out * knob o / 100)))%list.

Definition has_suffix (suffix s : string) : bool :=
  String.eqb (substring (String.length s - String.length suffix)
                        (String.length suffix) s) suffix.

(** The output options [toFile] takes from the extension. *)
Definition by_extension (path : string) : option OutputOptions :=
  if has_suffix ".jpeg" path || has_suffix ".jpg" path then Some (jpeg 80 false)
  else if has_suffix ".png" path then Some (png 6)
  else if has_suffix ".webp" path then Some (webp 80)
  else if has_suffix ".avif" path then Some (avif 50)
  else None.

#[export] Instance codec : Sharp := {|
  pipeline := pipe;
  sharp := fun b => mkPipe b None;
  metadata := fun p => decode (input p);
  resize := fun p o =>
    if valid_dimension (resize_width o) && valid_dimension (resize_height o)
    then Ok (mkPipe (input p) (Some o))
    else Throw "Expected positive integer for width or height";
  toBuffer := render;
  toFile := fun p path =>
    match by_extension path with
    | Some o => render p o
    | None => Throw "Unsupported output format"
    end
|}.

(** An upload: a 20 x 10 image in the first format, and states and
    requests over it. *)
Definition picture : Buffer :=
  ([byte_of 1; byte_of 90; byte_of 20; byte_of 10]
   ++ repeat "042"%byte 180)%list.

Definition upload : File := mkFile picture "photo.jpg" "image/jpeg".

Definition alice : Identity := mkIdentity "a11ce" "alice" "alice@example.org" "user".
Definition bob : Identity := mkIdentity "b0b" "bob" "bob@example.org" "user".

Definition account (i : Identity) : User :=
  mkUser (jwt_username i) (jwt_email i) "$2a$12$hash" (jwt_role i)
         (mkCompressionStats 0 0 None) 1000.

Definition empty : State :=
  mkState (<["a11ce" := account alice]> (<["b0b" := account bob]> ∅)) ∅ ∅.

Definition options (q f w h : option string) : CompressBody :=
  mkCompressBody q f w h None.

(** The rule of the cast: 24 hexadecimal characters. *)
Definition is_hex (c : ascii) : bool :=
  let n := N_of_ascii c in
  (((48 <=? n) && (n <=? 57)) || ((97 <=? n) && (n <=? 102))
   || ((65 <=? n) && (n <=? 70)))%N.

Definition quote : string := String (ascii_of_N 34) EmptyString.

#[export] Instance objectIds : ObjectIds := {|
  castObjectId := fun s =>
    if (String.length s =? 24)%nat && forallb is_hex (list_ascii_of_string s)
    then Ok tt
    else Throw ("Cast to ObjectId failed for value " ++ quote ++ s ++ quote
                ++ " (type string) at path " ++ quote ++ "_id" ++ quote
                ++ " for model " ++ quote ++ "CompressionHistory" ++ quote)
|}.

Definition draw : Fresh := mkFresh "3f2c" "65aa01b2c3d4e5f6a7b8c9d0" 5000.

(** Quality 10, format [jpg], no identity. *)
Definition anonymous_jpg : CompressRequest :=
  mkCompressRequest None (Some upload) (options (Some "10") (Some "jpg") None None).

(** Quality 10, format [JPG], as alice. *)
Definition alice_jpg : CompressRequest :=
  mkCompressRequest (Some alice) (Some upload)
                    (options (Some "10") (Some "JPG") None None).

(** Quality 10, format [png], width 5, as alice. *)
Definition alice_png : CompressRequest :=
  mkCompressRequest (Some alice) (Some upload)
                    (options (Some "10") (Some "png") (Some "5") None).

(** Quality 100, format [webp], width 500, as alice: the output is larger
    than the upload. *)
Definition alice_webp : CompressRequest :=
  mkCompressRequest (Some alice) (Some upload)
                    (options (Some "100") (Some "webp") (Some "500") None).


(** Height 0, which the codec refuses. *)
Definition zero_height : CompressRequest :=
  mkCompressRequest (Some alice) (Some upload)
                    (options (Some "100") (Some "webp") (Some "500") (Some "0")).

(** The state after alice's request: her record ["65aa01b2c3d4e5f6a7b8c9d0"] and its artifact
    ["3f2c.png"]. *)
Definition after_alice : State := snd (compress alice_png draw empty).

(** A record of alice's, and a state in which she has three, none of them
    first in every order. *)
Definition entry (uuid : string) (originalSize compressedSize createdAt : Z)
  : CompressionHistory :=
  mkCompressionHistory "a11ce" "photo.jpg" (uuid ++ ".png")
    originalSize compressedSize
    (JS.parseFloat (JS.toFixed 2 (ratio originalSize compressedSize)))
    "png" 80
    (mkDimensions (mkMetadata 20 10) (mkMetadata 20 10))
    ("/uploads/" ++ uuid ++ ".png") createdAt.

Definition three_records : State :=
  mkState (users empty)
          (<["65aa01b2c3d4e5f6a7b8c9d1" := entry "aaaa" 300 100 5001]>
             (<["65aa01b2c3d4e5f6a7b8c9d2" := entry "bbbb" 100 90 5003]>
                (<["65aa01b2c3d4e5f6a7b8c9d3" := entry "cccc" 200 150 5002]> ∅)))
          ∅.

(** The same state once the artifact has gone from the disk. *)
Definition artifact_lost : State :=
  mkState (users after_alice) (history after_alice) ∅.

End Reference.

(** ** Names for what a compression request yields *)

(** The extension of the stored file. *)
Definition extension (outputFormat : string) : string :=
  if String.eqb outputFormat "jpg" then "jpeg" else outputFormat.

(** The name of the artifact of a request. *)
Definition target (req : CompressRequest) (rnd : Fresh) : string :=
  fileName (uuid rnd) (outputFormat (raw_format (req_body req))).

(** The document the handler saves for an identified request whose source has
    metadata [meta], reported dimensions [cd] and encoded bytes [buf]. *)
Definition record_of (req : CompressRequest) (rnd : Fresh) (user : Identity)
    (file : File) (meta cd : Metadata) (buf : Buffer) : CompressionHistory :=
  let originalSize := size file in
  let compressedSize := Z.of_nat (List.length buf) in
  new_record user file (target req rnd) originalSize compressedSize
    (JS.toFixed 2 (ratio originalSize compressedSize))
    (outputFormat (raw_format (req_body req)))
    (qualityValue (raw_quality (req_body req)))
    meta cd (now rnd).

(** The body of the 200 response of such a request. *)
Definition result_of (req : CompressRequest) (rnd : Fresh)
    (file : File) (meta cd : Metadata) (buf : Buffer) : json :=
  let originalSize := size file in
  let compressedSize := Z.of_nat (List.length buf) in
  compress_result (target req rnd) originalSize compressedSize
    (JS.toFixed 2 (ratio originalSize compressedSize))
    (originalSize - compressedSize)
    (outputFormat (raw_format (req_body req)))
    meta cd
    (match req_user req with
     | Some _ => Some (objectId rnd)
     | None => None
     end).

(** ** Responses of the two deletions *)



Definition record_deleted : Response :=
  res_json (JObj [("success", JBool true);
                  ("message", JStr "Compression record deleted successfully")]).

Definition file_not_found : Response :=
  res_status_json 404 (JObj [("error", JStr "File not found")]).

Definition file_deleted : Response :=
  res_json (JObj [("success", JBool true);
                  ("message", JStr "File deleted successfully")]).

(** The collection after [findOneAndDelete]. *)
Definition without_matching (filename user : string)
    (h : gmap string CompressionHistory) : gmap string CompressionHistory :=
  match matching filename user h with
  | Some (id, _) => delete id h
  | None => h
  end.

(** ** The codec's contract for [withoutEnlargement]

    What the handler relies on when it passes [withoutEnlargement: true] with
    the [inside] fit: neither the metadata of the resized pipeline nor the
    image it encodes is larger, in either axis, than the pipeline's input. *)
Class NoEnlargement (SH : Sharp) : Prop := {
  resized_metadata :
    forall (p p' : pipeline) (o : ResizeOptions) (m m' : Metadata),
      metadata p = Ok m -> resize p o = Ok p' ->
      withoutEnlargement o = true -> fit o = inside ->
      metadata p' = Ok m' ->
      width m' <= width m /\ height m' <= height m;
  resized_output :
    forall (p p' : pipeline) (o : ResizeOptions) (e : OutputOptions)
           (out : Buffer) (m m' : Metadata),
      metadata p = Ok m -> resize p o = Ok p' ->
      withoutEnlargement o = true -> fit o = inside ->
      toBuffer p' e = Ok out -> metadata (sharp out) = Ok m' ->
      width m' <= width m /\ height m' <= height m
}.

(** ** [GET /api/compression/stats] *)

(** [User.findById(id)]. *)
Definition findById (id : string) : Handler (option User) :=
  gets (fun s => users s !! id).

(** [{$sum: '$field'}] over the documents of a group. *)
Definition sum_field (field : CompressionHistory -> Z)
    (docs : list (string * CompressionHistory)) : Z :=
  List.fold_right (fun d acc => field (snd d) + acc) 0 docs.

(** [{$addToSet: '$format'}]: each format once (the order of the array is the
    server's to choose; here that of first occurrence). *)
Definition addToSet (docs : list (string * CompressionHistory)) : list string :=
  List.fold_left
    (fun acc d => if JS.includes acc (format (snd d)) then acc
                  else (acc ++ [format (snd d)])%list)
    docs [].

(** The one group of the [$group] stage with [_id: null]. *)
Record Group : Type := mkGroup {
  group_totalCompressions : Z;
  group_totalOriginalSize : Z;
  group_totalCompressedSize : Z;
  group_avgCompressionRatio : float;
  group_mostUsedFormat : list string
}.

(** [user.compressionStats] as JSON; a date that was never set is left
    out. *)
Definition stats_json (c : CompressionStats) : json :=
  JObj ([("totalCompressions", JNum (totalCompressions c));
         ("totalSizeSaved", JNum (totalSizeSaved c))]
        ++ match lastCompression c with
           | Some t => [("lastCompression", JDate t)]
           | None => []
           end)%list.

Section Stats.

(** [$avg] over the ratios of the group, as the database computes it. *)
Variable avg : list float -> float.

(** [stats[0]] of [CompressionHistory.aggregate([{$match: {userId}},
    {$group: ..}])]: no matching document, no group. *)
Definition aggregate (user : string) : Handler (option Group) :=
  gets (fun s =>
          match owned user (history s) with
          | [] => None
          | docs =>
              Some (mkGroup (Z.of_nat (List.length docs))
                            (sum_field originalSize docs)
                            (sum_field compressedSize docs)
                            (avg (List.map (fun d => compressionRatio (snd d)) docs))
                            (addToSet docs))
          end).

Definition getStats (user : Identity) : State -> Response * State :=
  try_catch
    (let* account := findById (jwt_userId user) in
     match account with
     | None => ret (res_status_json 404 (JObj [("error", JStr "User not found")]))
     | Some account =>
         let* stats0 := aggregate (jwt_userId user) in
         let compressionStats_fields :=
           match stats0 with
           | Some g =>
               [("_id", JNull);
                ("totalCompressions", JNum (group_totalCompressions g));
                ("totalOriginalSize", JNum (group_totalOriginalSize g));
                ("totalCompressedSize", JNum (group_totalCompressedSize g));
                ("avgCompressionRatio", JDouble (group_avgCompressionRatio g));
                ("mostUsedFormat", JArr (List.map JStr (group_mostUsedFormat g)))]
           | None =>
               [("totalCompressions", JNum 0);
                ("totalOriginalSize", JNum 0);
                ("totalCompressedSize", JNum 0);
                ("avgCompressionRatio", JNum 0)]
           end in
         let totalOriginalSize :=
           match stats0 with Some g => group_totalOriginalSize g | None => 0 end in
         let totalCompressedSize :=
           match stats0 with Some g => group_totalCompressedSize g | None => 0 end in
         ret (res_json
                (JObj [("success", JBool true);
                       ("stats",
                        JObj (compressionStats_fields
                              ++ [("totalSizeSaved",
                                   JNum (totalOriginalSize - totalCompressedSize));
                                  ("userStats",
                                   stats_json (compressionStats account))])%list)]))
     end)
    (fun message =>
       res_status_json 500
         (JObj [("error", JStr "Failed to get compression statistics");
                ("message", JStr message)])).

End Stats.

(** ** [GET /api/admin/stats] *)

(** [storageStats[0]] of the aggregation over the whole collection: the
    bytes stored and the bytes saved. *)
Definition storageStats : Handler (option (Z * Z)) :=
  gets (fun s =>
          match map_to_list (history s) with
          | [] => None
          | docs =>
              Some (sum_field compressedSize docs,
                    sum_field (fun r => originalSize r - compressedSize r) docs)
          end).

(** [user.role] of a user that was not found throws a [TypeError]. *)
Definition adminStats (user : Identity) : State -> Response * State :=
  try_catch
    (let* account := findById (jwt_userId user) in
     match account with
     | None => await (Throw "Cannot read properties of null (reading 'role')")
     | Some account =>
         if negb (String.eqb (role account) "admin")
         then ret (res_status_json 403 (JObj [("error", JStr "Admin access required")]))
         else
           let* totalUsers :=
             gets (fun s => Z.of_nat (List.length (map_to_list (users s)))) in
           let* totalCompressions :=
             gets (fun s => Z.of_nat (List.length (map_to_list (history s)))) in
           let* storage := storageStats in
           ret (res_json
                  (JObj [("success", JBool true);
                         ("stats",
                          JObj [("totalUsers", JNum totalUsers);
                                ("totalCompressions", JNum totalCompressions);
                                ("storage",
                                 match storage with
                                 | Some (used, saved) =>
                                     JObj [("_id", JNull);
                                           ("totalStorageUsed", JNum used);
                                           ("totalSpaceSaved", JNum saved)]
                                 | None =>
                                     JObj [("totalStorageUsed", JNum 0);
                                           ("totalSpaceSaved", JNum 0)]
                                 end)])]))
     end)
    (fun message =>
       res_status_json 500
         (JObj [("error", JStr "Failed to get admin statistics");
                ("message", JStr message)])).

(** ** Bearer tokens

    [jwt.verify] and [jwt.sign] are the token library's; the middlewares are
    defined for every implementation of them. *)

(** [verify t] is the outcome of [jwt.verify(t, JWT_SECRET, ..)] at the time of
    the request, the payload or [None] for an error; [sign u t] is
    [jwt.sign(u, JWT_SECRET, ..)] at time [t]. *)
Class Jwt : Type := {
  verify : string -> option Identity;
  sign : Identity -> Z -> string
}.

(** [authHeader && authHeader.split(' ')[1]]: [None] is [undefined]. *)
Definition token_of (authorization : option string) : option string :=
  match authorization with
  | None => None
  | Some authHeader =>
      if String.eqb authHeader "" then Some ""
      else nth_error (JS.split " " authHeader) 1
  end.

(** What a middleware does with a request: it answers, or it calls [next()]
    with [req.user] as given. *)
Inductive passage : Type :=
| answered (r : Response)
| next (user : option Identity).

Section Middleware.

Context {JWT : Jwt}.

Definition authenticateToken (authorization : option string) : passage :=
  let token := token_of authorization in
  if negb (truthy token)
  then answered (res_status_json 401 (JObj [("error", JStr "Access token required")]))
  else
    match verify (default "" token) with
    | None =>
        answered (res_status_json 403 (JObj [("error", JStr "Invalid or expired token")]))
    | Some user => next (Some user)
    end.

Definition optionalAuth (authorization : option string) : passage :=
  let token := token_of authorization in
  if truthy token
  then next (verify (default "" token))
  else next None.

End Middleware.

(** ** What an upload must be *)

(** The [fileFilter] of the server's multer configuration. *)
Definition fileFilter (mimetype : string) : outcome bool :=
  if JS.startsWith mimetype "image/" then Ok true
  else Throw "Only image files are allowed!".

(** [limits.fileSize] of that configuration. *)
Definition fileSize : Z := 10 * 1024 * 1024.

(** [validateFile] of the client's [fileUtils.js], on the type and the size of
    the file. *)
Definition validateFile (type : string) (size : Z) : outcome bool :=
  let maxSize := 10 * 1024 * 1024 in
  let allowedTypes := ["image/jpeg"; "image/png"; "image/webp"; "image/avif"] in
  if negb (JS.includes allowedTypes type)
  then Throw "Please upload a valid image file (JPEG, PNG, WebP, AVIF)"
  else if size >? maxSize then Throw "File size must be less than 10MB"
  else Ok true.

(** ** The client's helpers *)

(** [formatFileSize] of [fileUtils.js]: the server's, with a fourth unit. *)
Definition client_formatFileSize (bytes : Z) : string :=
  if bytes =? 0 then "0 Bytes"
  else
    let k := 1024 in
    let sizes := ["Bytes"; "KB"; "MB"; "GB"] in
    match floor_log1024 bytes with
    | Some i =>
        shortest (JS.toFixed 2 (PrimFloat.div (JS.of_Z bytes) (JS.of_Z (k ^ i))))
        ++ " " ++ nth (Z.to_nat i) sizes "undefined"
    | None =>
        shortest (JS.toFixed 2 PrimFloat.nan) ++ " " ++ "undefined"
    end.

(** [getFileExtension] of [fileUtils.js]:
    [filename.split('.').pop().toLowerCase()]. *)
Definition getFileExtension (filename : string) : string :=
  JS.toLowerCase (JS.pop (JS.split "." filename)).

(** The extension as [handleFileSelect] of [App.jsx] takes it:
    [file.name.toLowerCase().split('.').pop()]. *)
Definition fileExt (name : string) : string :=
  JS.pop (JS.split "." (JS.toLowerCase name)).

(** A member of the object literal [formatMap] of [handleFileSelect]: one of
    its five own keys, or one of the two lower-case keys every object
    inherits ([constructor] and [__proto__], whose values are objects), or
    nothing. *)
Inductive member : Type :=
| own (value : string)
| inherited
| undefined.

Definition formatMap (key : string) : member :=
  if String.eqb key "jpg" then own "jpeg"
  else if String.eqb key "jpeg" then own "jpeg"
  else if String.eqb key "png" then own "png"
  else if String.eqb key "webp" then own "webp"
  else if String.eqb key "avif" then own "avif"
  else if String.eqb key "constructor" || String.eqb key "__proto__" then inherited
  else undefined.

(** [formatMap[fileExt] || 'jpeg']: the format [handleFileSelect] selects,
    [None] standing for an inherited object. *)
Definition selected_format (name : string) : option string :=
  match formatMap (fileExt name) with
  | own value => Some value
  | inherited => None
  | undefined => Some "jpeg"
  end.

(** What the client sends for a dimension typed as [value]:
    [handleDimensionChange] keeps [value ? parseInt(value) : ''] and
    [compressImage] appends it to the form when it is truthy; [None]: the
    field is not sent. *)
Definition sent_dimension (value : string) : option string :=
  if String.eqb value "" then None
  else
    match JS.parseInt value with
    | Some 0 => None
    | Some n => Some (JS.of_int n)
    | None => None
    end.

(** What the client sends for the quality when the slider reads [value]:
    [handleQualityChange] keeps [parseInt(value)] and [compressImage] always
    appends it. *)
Definition sent_quality (value : string) : string :=
  match JS.parseInt value with
  | Some n => JS.of_int n
  | None => "NaN"
  end.

(** ** Auxiliary notions for the statements *)

(** Whether the character occurs in the string. *)
Fixpoint has_char (c : ascii) (s : string) : bool :=
  match s with
  | EmptyString => false
  | String c' rest => Ascii.eqb c' c || has_char c rest
  end.

(** Whether a file name is one path segment - not empty, neither [.] nor
    [..], without a slash and without a NUL character - so that
    [path.join(uploadsDir, filename)] is the entry of that name. *)
Definition is_segment (filename : string) : bool :=
  negb (String.eqb filename "")
  && negb (String.eqb filename ".")
  && negb (String.eqb filename "..")
  && negb (has_char "/" filename)
  && negb (has_char (ascii_of_N 0) filename).

(** The value of a sequence of decimal digits read after the value [acc]. *)
Fixpoint uint_acc (d : Decimal.uint) (acc : Z) : Z :=
  match d with
  | Decimal.Nil => acc
  | Decimal.D0 d => uint_acc d (10 * acc + 0)
  | Decimal.D1 d => uint_acc d (10 * acc + 1)
  | Decimal.D2 d => uint_acc d (10 * acc + 2)
  | Decimal.D3 d => uint_acc d (10 * acc + 3)
  | Decimal.D4 d => uint_acc d (10 * acc + 4)
  | Decimal.D5 d => uint_acc d (10 * acc + 5)
  | Decimal.D6 d => uint_acc d (10 * acc + 6)
  | Decimal.D7 d => uint_acc d (10 * acc + 7)
  | Decimal.D8 d => uint_acc d (10 * acc + 8)
  | Decimal.D9 d => uint_acc d (10 * acc + 9)
  end.

(** What [parseInt] reads once white space and sign are behind: the prefix
    [0x] selects radix 16, and the digits of the radix give the value. *)
Definition unsigned_value (s2 : string) : option Z :=
  let '(radix, s3) :=
    match s2 with
    | String "0" (String "x" rest) => (16, rest)
    | String "0" (String "X" rest) => (16, rest)
    | _ => (10, s2)
    end in
  JS.radix_prefix radix s3 None.

(** The value a listing on one of the three integer fields is sorted by. *)
Definition sort_key (sortBy : string) (r : CompressionHistory) : Z :=
  if String.eqb sortBy "originalSize" then originalSize r
  else if String.eqb sortBy "compressedSize" then compressedSize r
  else createdAt r.

(** Whether no number occurs twice. *)
Fixpoint distinct (l : list Z) : bool :=
  match l with
  | [] => true
  | k :: rest => negb (existsb (Z.eqb k) rest) && distinct rest
  end.

(** The documents of page [page] of a listing with [limit] entries a
    page. *)
Definition page_documents (user sortBy : string) (sortOrder page limit : Z)
    (st : State) : list (string * CompressionHistory) :=
  match fst (find user sortBy sortOrder ((page - 1) * limit) limit st) with
  | Ok docs => docs
  | Throw _ => []
  end.

(** The records a user owns, counted, and the bytes they saved. *)
Definition counted (id : string) (st : State) : Z :=
  Z.of_nat (List.length (owned id (history st))).

Definition saved (id : string) (st : State) : Z :=
  sum_field originalSize (owned id (history st))
  - sum_field compressedSize (owned id (history st)).

(** The counters kept in the user documents are in step with the records:
    every user's [totalCompressions] and [totalSizeSaved] are the number of
    that user's records and the bytes they saved. *)
Definition in_step (st : State) : Prop :=
  forall id u,
    users st !! id = Some u ->
    totalCompressions (compressionStats u) = counted id st
    /\ totalSizeSaved (compressionStats u) = saved id st.

(** Whether a number is one that the integers of this development stand for
    exactly: [NaN], or a whole number strictly between -2^53 and 2^53. *)
Definition safe (x : option Z) : bool :=
  match x with
  | Some n => Z.abs n <? 2 ^ 53
  | None => true
  end.

(** A token library with two valid tokens, alice's and bob's. *)
Module Tokens.

#[export] Instance jwt : Jwt := {|
  verify := fun t =>
    if String.eqb t "a11ce-token" then Some Reference.alice
    else if String.eqb t "b0b-token" then Some Reference.bob
    else None;
  sign := fun u _ => jwt_userId u ++ "-token"
|}.

End Tokens.

(** * Properties *)

(** ** Parameter resolution *)

Lemma or_default_nonzero (n d : Z) : n <> 0 -> JS.or_default (Some n) d = n.
Proof. destruct n; simpl; congruence. Qed.

Lemma qualityValue_range (quality : option string) :
  10 <= qualityValue quality <= 100.
Proof. unfold qualityValue. lia. Qed.

Lemma qualityValue_absent : qualityValue None = 80.
Proof. reflexivity. Qed.

Lemma qualityValue_unparsable (s : string) :
  JS.parseInt s = None -> qualityValue (Some s) = 80.
Proof. intros H. unfold qualityValue. rewrite H. reflexivity. Qed.

Lemma qualityValue_clamped (s : string) (n : Z) :
  JS.parseInt s = Some n -> n <> 0 ->
  qualityValue (Some s) = Z.min 100 (Z.max 10 n).
Proof.
  intros H Hn. unfold qualityValue. rewrite H.
  now rewrite or_default_nonzero.
Qed.

Lemma qualityValue_parsed_zero (s : string) :
  JS.parseInt s = Some 0 -> qualityValue (Some s) = 80.
Proof. intros H. unfold qualityValue. rewrite H. reflexivity. Qed.

Lemma includes_In (xs : list string) (x : string) :
  JS.includes xs x = true <-> In x xs.
Proof.
  unfold JS.includes. rewrite existsb_exists. split.
  - intros (y & Hy & E). apply String.eqb_eq in E. now subst.
  - intros H. exists x. split; [assumption | apply String.eqb_refl].
Qed.

Lemma outputFormat_valid (format : option string) :
  In (outputFormat format) validFormats.
Proof.
  unfold outputFormat.
  destruct (JS.includes validFormats _) eqn:E.
  - now apply includes_In.
  - now left.
Qed.

Lemma outputFormat_fallback (format : option string) :
  ~ In (JS.toLowerCase (default "jpeg" format)) validFormats ->
  outputFormat format = "jpeg".
Proof.
  intros H. unfold outputFormat.
  destruct (JS.includes validFormats _) eqn:E; [| reflexivity].
  apply includes_In in E. contradiction.
Qed.

Lemma outputFormat_supported (format : option string) :
  In (JS.toLowerCase (default "jpeg" format)) validFormats ->
  outputFormat format = JS.toLowerCase (default "jpeg" format).
Proof.
  intros H. unfold outputFormat.
  apply includes_In in H. now rewrite H.
Qed.

Lemma lower_char_idempotent (c : ascii) :
  JS.lower_char (JS.lower_char c) = JS.lower_char c.
Proof.
  destruct c as [[] [] [] [] [] [] [] []]; vm_compute; reflexivity.
Qed.

Lemma toLowerCase_idempotent (s : string) :
  JS.toLowerCase (JS.toLowerCase s) = JS.toLowerCase s.
Proof.
  induction s as [| c s IH]; simpl; [reflexivity |].
  now rewrite lower_char_idempotent, IH.
Qed.

(** Resolution compares case-insensitively: an input and its lower-case
    form resolve alike. *)
Lemma outputFormat_case_insensitive (s : string) :
  outputFormat (Some s) = outputFormat (Some (JS.toLowerCase s)).
Proof.
  unfold outputFormat. simpl. now rewrite toLowerCase_idempotent.
Qed.

Lemma fileName_extension (uuid : string) (format : option string) :
  fileName uuid (outputFormat format) = uuid ++ "." ++ extension (outputFormat format)
  /\ In (extension (outputFormat format)) ["jpeg"; "png"; "webp"; "avif"].
Proof.
  split; [reflexivity |].
  pose proof (outputFormat_valid format) as H.
  unfold extension. simpl in H.
  destruct H as [H | [H | [H | [H | [H | []]]]]]; rewrite <- H; simpl; tauto.
Qed.

(** ** The compression handler, case by case *)

Section CompressFacts.

Context {SH : Sharp}.

Lemma compress_no_file (req : CompressRequest) (rnd : Fresh) (st : State) :
  req_file req = None ->
  compress req rnd st
  = (res_status_json 400 (JObj [("error", JStr "No image file provided")]), st).
Proof.
  intros H. unfold compress, try_catch, compress_body. now rewrite H.
Qed.

(** A codec call that throws before the write: the request is answered 500
    with the codec's message and the state is the one before. *)
Lemma compress_encode_throws (req : CompressRequest) (rnd : Fresh) (st : State)
    (file : File) (message : string) :
  req_file req = Some file ->
  encode file (req_body req) = Throw message ->
  compress req rnd st
  = (res_status_json 500
       (JObj [("error", JStr "Compression failed"); ("message", JStr message)]),
     st).
Proof.
  intros Hf He. unfold compress, try_catch, compress_body.
  rewrite Hf. unfold bind, await. now rewrite He.
Qed.

Lemma compress_toFile_throws (req : CompressRequest) (rnd : Fresh) (st : State)
    (file : File) (meta cd : Metadata) (buf : Buffer) (message : string) :
  req_file req = Some file ->
  encode file (req_body req) = Ok (meta, cd, buf) ->
  toFile (sharp buf) (target req rnd) = Throw message ->
  compress req rnd st
  = (res_status_json 500
       (JObj [("error", JStr "Compression failed"); ("message", JStr message)]),
     st).
Proof.
  intros Hf He Ht. unfold compress, try_catch, compress_body.
  rewrite Hf. unfold bind, await. rewrite He.
  unfold target in Ht. now rewrite Ht.
Qed.

(** A 200 response: every step before it went through. *)
Lemma compress_success (req : CompressRequest) (rnd : Fresh) (st st' : State)
    (resp : Response) :
  compress req rnd st = (resp, st') ->
  status resp = 200 ->
  exists file meta cd buf written,
    req_file req = Some file
    /\ encode file (req_body req) = Ok (meta, cd, buf)
    /\ toFile (sharp buf) (target req rnd) = Ok written
    /\ uploads st' = <[target req rnd := written]> (uploads st)
    /\ body resp = result_of req rnd file meta cd buf
    /\ match req_user req with
       | None => users st' = users st /\ history st' = history st
       | Some user =>
           history st !! objectId rnd = None
           /\ history st' = <[objectId rnd := record_of req rnd user file meta cd buf]>
                              (history st)
           /\ users st'
              = alter (inc_stats (size file - Z.of_nat (List.length buf)) (now rnd))
                      (jwt_userId user) (users st)
       end.
Proof.
  unfold compress, try_catch, compress_body, target, result_of, record_of.
  intros H Hs.
  destruct (req_file req) as [file |].
  2:{ inversion H; subst; discriminate. }
  unfold bind, await in H.
  destruct (encode file (req_body req)) as [[[meta cd] buf] | msg] eqn:He.
  2:{ inversion H; subst; discriminate. }
  destruct (toFile _ _) as [written | msg] eqn:Ht.
  2:{ inversion H; subst; discriminate. }
  exists file, meta, cd, buf, written.
  unfold writeFile, modify in H.
  destruct (req_user req) as [user |].
  - unfold save, findByIdAndUpdate, modify, ret in H. cbn [history uploads users] in H.
    destruct (history st !! objectId rnd) eqn:E.
    { inversion H; subst; discriminate. }
    inversion H; subst. cbn [users history uploads body res_json].
    repeat split; try reflexivity; assumption.
  - unfold ret in H. inversion H; subst. cbn [users history uploads body res_json].
    repeat split; try reflexivity; assumption.
Qed.

End CompressFacts.

(** ** The history listing *)

Lemma ceil_div_bounds (total limit : Z) :
  0 < limit ->
  (ceil_div total limit - 1) * limit < total <= ceil_div total limit * limit.
Proof.
  intros Hl. unfold ceil_div.
  pose proof (Z.div_mod (- total) limit ltac:(lia)) as E.
  pose proof (Z.mod_pos_bound (- total) limit Hl) as B.
  nia.
Qed.

(** [ceil_div total limit] is the least number of pages of [limit] entries
    that hold [total] entries. *)
Lemma ceil_div_least (total limit p : Z) :
  0 < limit -> total <= p * limit -> ceil_div total limit <= p.
Proof.
  intros Hl Hp. pose proof (ceil_div_bounds total limit Hl) as B. nia.
Qed.

Lemma getHistory_keeps_state (q : HistoryQuery) (user : Identity) (st : State) :
  snd (getHistory q user st) = st.
Proof.
  unfold getHistory, try_catch.
  destruct (negb _); [reflexivity |].
  destruct (_ || _); reflexivity.
Qed.

Lemma getHistory_invalid_sortBy (q : HistoryQuery) (user : Identity) (st : State) :
  ~ In (sortBy_of q) validSortFields ->
  fst (getHistory q user st)
  = res_status_json 400 (JObj [("error", JStr "Invalid sortBy field")]).
Proof.
  intros H. unfold getHistory, try_catch.
  destruct (JS.includes validSortFields (sortBy_of q)) eqn:E.
  - apply includes_In in E. contradiction.
  - reflexivity.
Qed.

Lemma getHistory_not_positive (q : HistoryQuery) (user : Identity) (st : State) :
  In (sortBy_of q) validSortFields ->
  page_of q < 1 \/ limit_of q < 1 ->
  fst (getHistory q user st)
  = res_status_json 400
      (JObj [("error", JStr "Page and limit must be positive integers")]).
Proof.
  intros Hs Hp. unfold getHistory, try_catch.
  apply includes_In in Hs. rewrite Hs. cbn [negb].
  replace ((page_of q <? 1) || (limit_of q <? 1)) with true; [reflexivity |].
  symmetry. apply orb_true_iff. rewrite !Z.ltb_lt. exact Hp.
Qed.

Lemma getHistory_success (q : HistoryQuery) (user : Identity) (st : State) :
  In (sortBy_of q) validSortFields ->
  1 <= page_of q -> 1 <= limit_of q ->
  exists docs,
    fst (getHistory q user st)
    = res_json
        (JObj [("success", JBool true);
               ("history", JArr docs);
               ("pagination",
                pagination_json (page_of q) (limit_of q)
                  (Z.of_nat (List.length (owned (jwt_userId user) (history st))))
                  (sortBy_of q) (sortOrder_of q))]).
Proof.
  intros Hs Hp Hl. unfold getHistory, try_catch.
  apply includes_In in Hs. rewrite Hs. cbn [negb].
  replace ((page_of q <? 1) || (limit_of q <? 1)) with false.
  - eexists. reflexivity.
  - symmetry. apply orb_false_iff. rewrite !Z.ltb_ge. lia.
Qed.

Lemma history_defaults :
  page_of (mkHistoryQuery None None None None) = 1
  /\ limit_of (mkHistoryQuery None None None None) = 10
  /\ sortBy_of (mkHistoryQuery None None None None) = "createdAt"
  /\ sortOrder_of (mkHistoryQuery None None None None) = -1.
Proof. repeat split; reflexivity. Qed.

(** ** Deleting a record *)

Section DeleteFacts.

Context {OI : ObjectIds}.




Lemma deleteRecord_owned (recordId : string) (user : Identity) (st : State)
    (r : CompressionHistory) :
  history st !! recordId = Some r ->
  userId r = jwt_userId user ->
  deleteRecord recordId user st
  = (record_deleted,
     mkState (users st) (delete recordId (history st))
             (delete (compressedFilename r) (uploads st))).
Proof.
  intros H Hu. unfold deleteRecord, try_catch, bind, findOne.
  rewrite H. apply String.eqb_eq in Hu. rewrite Hu.
  unfold existsSync, gets.
  destruct (bool_decide (is_Some (uploads st !! compressedFilename r))) eqn:E.
  - reflexivity.
  - apply bool_decide_eq_false in E.
    unfold ret, findByIdAndDelete, modify. cbn [users history uploads].
    rewrite (delete_id (uploads st)); [reflexivity |].
    destruct (uploads st !! compressedFilename r) eqn:F; [| reflexivity].
    exfalso. apply E. eauto.
Qed.

End DeleteFacts.

(** ** Cleanup by file name *)

Lemma matching_Some (filename user : string) (h : gmap string CompressionHistory)
    (id : string) (r : CompressionHistory) :
  matching filename user h = Some (id, r) ->
  h !! id = Some r /\ compressedFilename r = filename /\ userId r = user.
Proof.
  unfold matching. intros H. apply List.find_some in H as [Hin Hp].
  apply andb_true_iff in Hp as [Hf Hu].
  apply String.eqb_eq in Hf, Hu.
  apply list_elem_of_In, elem_of_map_to_list in Hin. auto.
Qed.

Lemma matching_None (filename user : string) (h : gmap string CompressionHistory)
    (id : string) (r : CompressionHistory) :
  matching filename user h = None ->
  h !! id = Some r ->
  compressedFilename r = filename -> userId r = user -> False.
Proof.
  unfold matching. intros H Hl Hf Hu.
  apply elem_of_map_to_list, list_elem_of_In in Hl.
  pose proof (List.find_none _ _ H _ Hl) as Hp. cbn in Hp.
  apply String.eqb_eq in Hf, Hu. rewrite Hf, Hu in Hp. discriminate.
Qed.

Lemma cleanup_file_missing (filename : string) (user : Identity) (st : State) :
  uploads st !! filename = None ->
  cleanup filename user st
  = (file_not_found,
     mkState (users st)
             (without_matching filename (jwt_userId user) (history st))
             (uploads st)).
Proof.
  intros H.
  unfold cleanup, try_catch, bind, findOneAndDelete, modify, existsSync, gets,
    without_matching.
  destruct (matching filename (jwt_userId user) (history st)) as [[id r] |];
    cbn [uploads users history]; rewrite H;
    (rewrite bool_decide_eq_false_2; [| now intros [? ?]]).
  - reflexivity.
  - now destruct st.
Qed.

Lemma cleanup_file_present (filename : string) (user : Identity) (st : State)
    (data : Buffer) :
  uploads st !! filename = Some data ->
  cleanup filename user st
  = (file_deleted,
     mkState (users st)
             (without_matching filename (jwt_userId user) (history st))
             (delete filename (uploads st))).
Proof.
  intros H.
  unfold cleanup, try_catch, bind, findOneAndDelete, modify, existsSync, gets,
    without_matching.
  destruct (matching filename (jwt_userId user) (history st)) as [[id r] |];
    cbn [uploads users history]; rewrite H;
    (rewrite bool_decide_eq_true_2; [| now eauto]); reflexivity.
Qed.

(** ** The small codec keeps the contract *)

Module ReferenceFacts.

Import Reference.

Lemma value_of_byte_of (z : Z) : 0 <= z -> 0 <= value_of (byte_of z) <= z.
Proof.
  intros Hz. unfold value_of, byte_of.
  assert (B : (Z.to_N z mod 256 < 256)%N) by (apply N.mod_upper_bound; lia).
  assert (L : (Z.to_N z mod 256 <= Z.to_N z)%N) by (apply N.Div0.mod_le).
  destruct (Byte.of_N (Z.to_N z mod 256)) as [b |] eqn:E.
  - apply Byte.to_of_N in E. cbn [default id]. rewrite E. lia.
  - apply Byte.of_N_None_iff in E. lia.
Qed.

Lemma decode_positive (b : Buffer) (m : Metadata) :
  decode b = Ok m -> 1 <= width m /\ 1 <= height m.
Proof.
  unfold decode.
  destruct b as [| t [| q [| w [| h rest]]]]; try discriminate.
  destruct (_ && _) eqn:E; [| discriminate].
  intros H. inversion H; subst. cbn [width height].
  rewrite !andb_true_iff, !Z.leb_le in E. lia.
Qed.

(** A factor that is at most one does not enlarge. *)
Lemma scaled_le (n : Z) (s : Z * Z) :
  1 <= n -> 0 <= snd s -> fst s <= snd s -> Z.max 1 (scaled n s) <= n.
Proof.
  intros Hn Hd Hs. unfold scaled.
  destruct (Z.eq_dec (snd s) 0) as [E | E].
  - rewrite E. cbn [Z.mul]. rewrite Z.div_0_r. lia.
  - assert (2 * n * fst s + snd s < 2 * snd s * (n + 1)) by nia.
    pose proof (Z.div_lt_upper_bound (2 * n * fst s + snd s) (2 * snd s) (n + 1)
                  ltac:(lia) ltac:(lia)).
    lia.
Qed.

Lemma box_factor_denominator (r : option (option Z)) (source : Z) :
  0 <= source -> 0 <= snd (box_factor r source).
Proof. intros H. destruct r as [[r |] |]; cbn; lia. Qed.

Lemma frac_min_one (s : Z * Z) :
  0 <= snd s ->
  0 <= snd (frac_min s (1, 1)) /\ fst (frac_min s (1, 1)) <= snd (frac_min s (1, 1)).
Proof.
  intros H. unfold frac_min, frac_le. cbn [fst snd].
  destruct (fst s * 1 <=? 1 * snd s) eqn:E; cbn [fst snd]; [| lia].
  apply Z.leb_le in E. lia.
Qed.

Lemma output_size_inside (m : Metadata) (o : ResizeOptions) :
  1 <= width m -> 1 <= height m ->
  withoutEnlargement o = true -> fit o = inside ->
  width (output_size m (Some o)) <= width m
  /\ height (output_size m (Some o)) <= height m.
Proof.
  intros Hw Hh He Hf. unfold output_size. rewrite Hf, He. cbn [width height].
  match goal with
  | |- context [frac_min ?s (1, 1)] =>
      assert (D : 0 <= snd s);
      [| destruct (frac_min_one s D) as [D1 D2];
         split; apply scaled_le; assumption]
  end.
  destruct (resize_width o) as [rw |], (resize_height o) as [rh |];
    cbn [snd]; try lia;
    try (apply box_factor_denominator; lia).
  unfold frac_min. destruct (frac_le _ _); apply box_factor_denominator; lia.
Qed.

#[export] Instance codec_no_enlargement : NoEnlargement codec.
Proof.
  split.
  - intros p p' o m m' Hm Hr _ _ Hm'.
    cbn [metadata resize codec] in Hm, Hr, Hm'.
    destruct (_ && _); [| discriminate].
    inversion Hr; subst. cbn [input] in Hm'.
    rewrite Hm in Hm'. inversion Hm'; subst. lia.
  - intros p p' o e out m m' Hm Hr He Hf Ho Hm'.
    cbn [metadata resize toBuffer sharp codec input] in Hm, Hr, Ho, Hm'.
    destruct (_ && _); [| discriminate].
    inversion Hr; subst. clear Hr.
    unfold render in Ho. cbn [input resizing] in Ho.
    rewrite Hm in Ho. cbn [and_then] in Ho.
    destruct (decode_positive _ _ Hm) as [Hw Hh].
    destruct (output_size_inside m o Hw Hh He Hf) as [Ow Oh].
    remember (output_size m (Some o)) as sz eqn:Esz.
    assert (Pw : 0 <= width sz /\ 0 <= height sz).
    { subst sz. unfold output_size. rewrite Hf.
      destruct (withoutEnlargement o); cbn [width height]; lia. }
    inversion Ho; subst out. clear Ho.
    revert Hm'. unfold decode. cbn [app].
    destruct (_ && _) eqn:E; [| discriminate].
    intros Hm'. inversion Hm'; subst m'. cbn [width height].
    pose proof (value_of_byte_of (width sz) ltac:(lia)).
    pose proof (value_of_byte_of (height sz) ltac:(lia)).
    lia.
Qed.

End ReferenceFacts.

(** ** What a compression leaves behind *)

Section Bookkeeping.

Context {SH : Sharp}.

(** Without an identity the two collections are not touched, whatever the
    outcome of the request. *)
Lemma compress_anonymous_frame (req : CompressRequest) (rnd : Fresh) (st : State) :
  req_user req = None ->
  users (snd (compress req rnd st)) = users st
  /\ history (snd (compress req rnd st)) = history st.
Proof.
  intros Hu. unfold compress, try_catch, compress_body.
  destruct (req_file req) as [file |]; [| split; reflexivity].
  unfold bind, await.
  destruct (encode file (req_body req)) as [[[meta cd] buf] | msg];
    [| split; reflexivity].
  destruct (toFile _ _) as [written | msg]; [| split; reflexivity].
  rewrite Hu. split; reflexivity.
Qed.

Lemma result_recordId (req : CompressRequest) (rnd : Fresh) (file : File)
    (meta cd : Metadata) (buf : Buffer) (user : Identity) :
  req_user req = Some user ->
  field "recordId" (result_of req rnd file meta cd buf) = Some (JStr (objectId rnd)).
Proof. intros H. unfold result_of. rewrite H. reflexivity. Qed.

(** C9: a compression request that carries no identity leaves the User and
    the CompressionHistory collections unchanged, whatever its outcome; a
    request that carries one and is answered 200 has, in the state in which
    the response is sent, saved one new record owned by the requester and
    incremented the requester's counters ([totalCompressions] by one,
    [totalSizeSaved] by the savings, [lastCompression] set to the time of
    the request), and the response names the new record. *)
Theorem anonymous_compression_not_recorded
    (req : CompressRequest) (rnd : Fresh) (st st' : State) (resp : Response) :
  compress req rnd st = (resp, st') ->
  (req_user req = None -> users st' = users st /\ history st' = history st)
  /\ (forall user,
        req_user req = Some user -> status resp = 200 ->
        exists r,
          history st !! objectId rnd = None
          /\ history st' = <[objectId rnd := r]> (history st)
          /\ userId r = jwt_userId user
          /\ compressedFilename r = target req rnd
          /\ users st'
             = alter (inc_stats (originalSize r - compressedSize r) (now rnd))
                     (jwt_userId user) (users st)
          /\ (forall u,
                users st !! jwt_userId user = Some u ->
                exists u',
                  users st' !! jwt_userId user = Some u'
                  /\ totalCompressions (compressionStats u')
                     = totalCompressions (compressionStats u) + 1
                  /\ totalSizeSaved (compressionStats u')
                     = totalSizeSaved (compressionStats u)
                       + (originalSize r - compressedSize r)
                  /\ lastCompression (compressionStats u') = Some (now rnd))
          /\ field "recordId" (body resp) = Some (JStr (objectId rnd))).
Proof.
  intros H. split.
  - intros Hu. pose proof (compress_anonymous_frame req rnd st Hu) as F.
    rewrite H in F. exact F.
  - intros user Hu Hs.
    destruct (compress_success req rnd st st' resp H Hs)
      as (file & meta & cd & buf & written & Hf & He & Ht & Hup & Hb & Hrec).
    rewrite Hu in Hrec. destruct Hrec as (Hfresh & Hh & Husers).
    exists (record_of req rnd user file meta cd buf).
    split; [assumption |]. split; [assumption |].
    split; [reflexivity |]. split; [reflexivity |].
    split; [assumption |]. split.
    + intros u Hl.
      exists (inc_stats (size file - Z.of_nat (List.length buf)) (now rnd) u).
      rewrite Husers, lookup_alter_eq, Hl. repeat split; reflexivity.
    + rewrite Hb. now apply (result_recordId _ _ _ _ _ _ user).
Qed.

End Bookkeeping.

(** The theorem at two requests on the small codec: one without identity, one
    of alice. *)
Lemma anonymous_compression_not_recorded_witness :
  (users (snd (compress (SH := Reference.codec) Reference.anonymous_jpg Reference.draw Reference.empty))
   = users Reference.empty
   /\ history (snd (compress (SH := Reference.codec) Reference.anonymous_jpg Reference.draw Reference.empty))
      = history Reference.empty)
  /\ exists r,
      history (snd (compress (SH := Reference.codec) Reference.alice_png Reference.draw Reference.empty))
      = <["65aa01b2c3d4e5f6a7b8c9d0" := r]> (history Reference.empty)
      /\ userId r = "a11ce".
Proof.
  split.
  - apply (anonymous_compression_not_recorded (SH := Reference.codec)
             Reference.anonymous_jpg Reference.draw Reference.empty _ _
             (surjective_pairing _)).
    reflexivity.
  - destruct (proj2 (anonymous_compression_not_recorded (SH := Reference.codec)
                       Reference.alice_png Reference.draw Reference.empty _ _
                       (surjective_pairing _))
                    Reference.alice eq_refl eq_refl)
      as (r & _ & Hh & Hu & _).
    exists r. split; assumption.
Defined.

(** ** Deleting a record: the claim *)

Section DeleteClaim.

Context {OI : ObjectIds}.


End DeleteClaim.



(** ** Cleanup: a 404 that changes the state *)

(** C10: when a record with the given file name is owned by the requesting
    user and no file of that name is on disk, cleanup deletes such a record
    and then answers 404: the record is no longer in the collection of the
    state in which the 404 is sent, which therefore differs from the state
    before. *)
Theorem cleanup_not_found_deletes_record
    (filename : string) (user : Identity) (st : State)
    (id : string) (r : CompressionHistory) :
  history st !! id = Some r ->
  compressedFilename r = filename ->
  userId r = jwt_userId user ->
  uploads st !! filename = None ->
  exists id' r',
    history st !! id' = Some r'
    /\ compressedFilename r' = filename
    /\ userId r' = jwt_userId user
    /\ cleanup filename user st
       = (file_not_found,
          mkState (users st) (delete id' (history st)) (uploads st))
    /\ status (fst (cleanup filename user st)) = 404
    /\ history (snd (cleanup filename user st)) !! id' = None
    /\ snd (cleanup filename user st) <> st.
Proof.
  intros Hr Hf Hu Hnone.
  rewrite (cleanup_file_missing filename user st Hnone).
  unfold without_matching.
  destruct (matching filename (jwt_userId user) (history st)) as [[id' r'] |] eqn:M.
  - apply matching_Some in M as (Hr' & Hf' & Hu').
    exists id', r'. cbn [fst snd history status file_not_found res_status_json].
    repeat split; try assumption; try reflexivity.
    + apply lookup_delete_eq.
    + intros E. apply (f_equal (fun s => history s !! id')) in E.
      cbn [history] in E. rewrite lookup_delete_eq, Hr' in E. discriminate.
  - exfalso. exact (matching_None _ _ _ _ _ M Hr Hf Hu).
Qed.

(** The theorem at alice's cleanup of her artifact once the file is lost. *)
Lemma cleanup_not_found_deletes_record_witness :
  exists id' r',
    history Reference.artifact_lost !! id' = Some r'
    /\ compressedFilename r' = "3f2c.png"
    /\ userId r' = "a11ce"
    /\ cleanup "3f2c.png" Reference.alice Reference.artifact_lost
       = (file_not_found,
          mkState (users Reference.artifact_lost)
                  (delete id' (history Reference.artifact_lost))
                  (uploads Reference.artifact_lost))
    /\ status (fst (cleanup "3f2c.png" Reference.alice Reference.artifact_lost)) = 404
    /\ history (snd (cleanup "3f2c.png" Reference.alice Reference.artifact_lost)) !! id'
       = None
    /\ snd (cleanup "3f2c.png" Reference.alice Reference.artifact_lost)
       <> Reference.artifact_lost.
Proof.
  destruct (history Reference.artifact_lost !! "65aa01b2c3d4e5f6a7b8c9d0") as [r |] eqn:E;
    [| vm_compute in E; discriminate].
  apply (cleanup_not_found_deletes_record "3f2c.png" Reference.alice
           Reference.artifact_lost "65aa01b2c3d4e5f6a7b8c9d0" r E).
  - vm_compute in E. inversion E; subst. reflexivity.
  - vm_compute in E. inversion E; subst. reflexivity.
  - reflexivity.
Defined.

(** ** Resizing never enlarges *)

Section Resize.

Context {SH : Sharp} {NE : NoEnlargement SH}.

Lemma resizeOptions_flags (b : CompressBody) :
  withoutEnlargement (resizeOptions b) = true
  /\ (default "true" (raw_maintainAspectRatio b) = "true" ->
      fit (resizeOptions b) = inside).
Proof.
  split; [reflexivity |].
  intros H. unfold resizeOptions. cbn [fit]. rewrite H. reflexivity.
Qed.

Lemma encode_resized (file : File) (b : CompressBody)
    (meta cd : Metadata) (buf : Buffer) :
  truthy (raw_width b) || truthy (raw_height b) = true ->
  default "true" (raw_maintainAspectRatio b) = "true" ->
  encode file b = Ok (meta, cd, buf) ->
  metadata (sharp (buffer file)) = Ok meta
  /\ (width cd <= width meta /\ height cd <= height meta)
  /\ (forall m, metadata (sharp buf) = Ok m ->
                width m <= width meta /\ height m <= height meta).
Proof.
  intros Hr Ha. unfold encode. rewrite Hr.
  destruct (resizeOptions_flags b) as [Hw Hf]. specialize (Hf Ha).
  destruct (metadata (sharp (buffer file))) as [m0 |] eqn:Hm; [| discriminate].
  cbn [and_then].
  destruct (resize (sharp (buffer file)) (resizeOptions b)) as [p' |] eqn:Hp;
    [| discriminate].
  cbn [and_then].
  destruct (metadata p') as [m1 |] eqn:Hm1; [| discriminate].
  cbn [and_then].
  destruct (toBuffer p' _) as [out |] eqn:Ho; [| discriminate].
  cbn [and_then]. intros E. inversion E; subst. clear E.
  split; [reflexivity |]. split.
  - exact (resized_metadata _ _ _ _ _ Hm Hp Hw Hf Hm1).
  - intros m Hout. exact (resized_output _ _ _ _ _ _ _ Hm Hp Hw Hf Ho Hout).
Qed.

(** C5: a compression request that asks for a resize (a width or a height
    is given) in the aspect-ratio-preserving mode resizes with
    [withoutEnlargement] set and the [inside] fit; so, for a codec that
    honours that flag, a request answered 200 reports compressed dimensions
    that exceed the source's in neither axis, and the image it encoded
    exceeds the source in neither axis, whatever width and height were
    requested. *)
Theorem resize_never_enlarges
    (req : CompressRequest) (rnd : Fresh) (st st' : State) (resp : Response) :
  compress req rnd st = (resp, st') ->
  status resp = 200 ->
  truthy (raw_width (req_body req)) || truthy (raw_height (req_body req)) = true ->
  default "true" (raw_maintainAspectRatio (req_body req)) = "true" ->
  (withoutEnlargement (resizeOptions (req_body req)) = true
   /\ fit (resizeOptions (req_body req)) = inside)
  /\ exists file meta cd buf,
      req_file req = Some file
      /\ metadata (sharp (buffer file)) = Ok meta
      /\ encode file (req_body req) = Ok (meta, cd, buf)
      /\ field "dimensions" (body resp)
         = Some (JObj [("original", metadata_json meta);
                       ("compressed", metadata_json cd)])
      /\ (width cd <= width meta /\ height cd <= height meta)
      /\ (forall m, metadata (sharp buf) = Ok m ->
                    width m <= width meta /\ height m <= height meta).
Proof.
  intros H Hs Hr Ha.
  split; [split; [reflexivity | now apply resizeOptions_flags] |].
  destruct (compress_success req rnd st st' resp H Hs)
    as (file & meta & cd & buf & written & Hf & He & _ & _ & Hb & _).
  destruct (encode_resized file (req_body req) meta cd buf Hr Ha He)
    as (Hm & Hcd & Hout).
  exists file, meta, cd, buf.
  split; [assumption |]. split; [assumption |]. split; [assumption |].
  split; [| split; assumption].
  rewrite Hb. reflexivity.
Qed.

End Resize.

(** The theorem on the small codec, at a request for width 500 on a source of
    width 20. *)
Lemma resize_never_enlarges_witness :
  (withoutEnlargement (resizeOptions (req_body Reference.alice_webp)) = true
   /\ fit (resizeOptions (req_body Reference.alice_webp)) = inside)
  /\ exists file meta cd buf,
    req_file Reference.alice_webp = Some file
    /\ metadata (Sharp := Reference.codec) (sharp (buffer file)) = Ok meta
    /\ encode (SH := Reference.codec) file (req_body Reference.alice_webp)
       = Ok (meta, cd, buf)
    /\ field "dimensions"
         (body (fst (compress (SH := Reference.codec) Reference.alice_webp
                       Reference.draw Reference.empty)))
       = Some (JObj [("original", metadata_json meta);
                     ("compressed", metadata_json cd)])
    /\ (width cd <= width meta /\ height cd <= height meta)
    /\ (forall m, metadata (Sharp := Reference.codec) (sharp buf) = Ok m ->
                  width m <= width meta /\ height m <= height meta).
Proof.
  apply (resize_never_enlarges (SH := Reference.codec)
           (NE := ReferenceFacts.codec_no_enlargement)
           Reference.alice_webp Reference.draw Reference.empty _ _
           (surjective_pairing _)).
  - reflexivity.
  - reflexivity.
  - reflexivity.
Defined.

(** ** Formats and names *)

Section Formats.

Context {SH : Sharp}.

Lemma result_fields (req : CompressRequest) (rnd : Fresh) (file : File)
    (meta cd : Metadata) (buf : Buffer) :
  field "fileName" (result_of req rnd file meta cd buf) = Some (JStr (target req rnd))
  /\ field "originalSize" (result_of req rnd file meta cd buf)
     = Some (JNum (size file))
  /\ field "compressedSize" (result_of req rnd file meta cd buf)
     = Some (JNum (Z.of_nat (List.length buf)))
  /\ field "compressionRatio" (result_of req rnd file meta cd buf)
     = Some (JStr (JS.toFixed 2 (ratio (size file) (Z.of_nat (List.length buf)))))
  /\ field "savings" (result_of req rnd file meta cd buf)
     = Some (JStr (formatFileSize (size file - Z.of_nat (List.length buf))))
  /\ field "downloadUrl" (result_of req rnd file meta cd buf)
     = Some (JStr ("/uploads/" ++ target req rnd))
  /\ field "format" (result_of req rnd file meta cd buf)
     = Some (JStr (outputFormat (raw_format (req_body req)))).
Proof. repeat split; reflexivity. Qed.

(** C4, as the code has it: a format that, in lower case, is none of jpeg,
    jpg, png, webp and avif - or is absent - resolves to jpeg, and one of
    them resolves to its lower-case form; the artifact of a request answered
    200 is stored under the drawn uuid with the resolved format as
    extension, jpg written jpeg, and the response's [fileName] and
    [downloadUrl] carry that name; the [format] of the response and of the
    saved record is the resolved format itself, not the extension. *)
Theorem format_resolution_and_naming
    (req : CompressRequest) (rnd : Fresh) (st st' : State) (resp : Response) :
  compress req rnd st = (resp, st') ->
  status resp = 200 ->
  (In (outputFormat (raw_format (req_body req))) validFormats
   /\ (~ In (JS.toLowerCase (default "jpeg" (raw_format (req_body req)))) validFormats ->
       outputFormat (raw_format (req_body req)) = "jpeg")
   /\ (In (JS.toLowerCase (default "jpeg" (raw_format (req_body req)))) validFormats ->
       outputFormat (raw_format (req_body req))
       = JS.toLowerCase (default "jpeg" (raw_format (req_body req)))))
  /\ (target req rnd
      = uuid rnd ++ "." ++ extension (outputFormat (raw_format (req_body req)))
      /\ In (extension (outputFormat (raw_format (req_body req))))
            ["jpeg"; "png"; "webp"; "avif"]
      /\ (outputFormat (raw_format (req_body req)) = "jpg" ->
          extension (outputFormat (raw_format (req_body req))) = "jpeg")
      /\ is_Some (uploads st' !! target req rnd)
      /\ field "fileName" (body resp) = Some (JStr (target req rnd))
      /\ field "downloadUrl" (body resp) = Some (JStr ("/uploads/" ++ target req rnd)))
  /\ (field "format" (body resp)
      = Some (JStr (outputFormat (raw_format (req_body req))))
      /\ forall user,
           req_user req = Some user ->
           exists r,
             history st' !! objectId rnd = Some r
             /\ format r = outputFormat (raw_format (req_body req))
             /\ compressedFilename r = target req rnd).
Proof.
  intros H Hs.
  destruct (compress_success req rnd st st' resp H Hs)
    as (file & meta & cd & buf & written & Hf & He & Ht & Hup & Hb & Hrec).
  destruct (result_fields req rnd file meta cd buf)
    as (Fn & _ & _ & _ & _ & Fu & Ff).
  destruct (fileName_extension (uuid rnd) (raw_format (req_body req))) as [Ex Ein].
  split; [| split].
  - split; [apply outputFormat_valid |].
    split; [apply outputFormat_fallback | apply outputFormat_supported].
  - split; [exact Ex |]. split; [exact Ein |]. split.
    { intros E. unfold extension. rewrite E. reflexivity. }
    split.
    { rewrite Hup, lookup_insert_eq. eauto. }
    rewrite Hb. split; assumption.
  - rewrite Hb. split; [assumption |].
    intros user Hu. rewrite Hu in Hrec. destruct Hrec as (_ & Hh & _).
    exists (record_of req rnd user file meta cd buf).
    rewrite Hh, lookup_insert_eq. repeat split; reflexivity.
Qed.

End Formats.

(** C4 as stated fails on the format reported and recorded: alice's request
    with format [JPG] is answered 200, its file is [3f2c.jpeg], and both
    the response and the saved record give the format as [jpg]. *)
Lemma jpg_reported_and_recorded_as_jpg :
  status (fst (compress (SH := Reference.codec) Reference.alice_jpg
                 Reference.draw Reference.empty)) = 200
  /\ field "fileName"
       (body (fst (compress (SH := Reference.codec) Reference.alice_jpg
                     Reference.draw Reference.empty)))
     = Some (JStr "3f2c.jpeg")
  /\ field "format"
       (body (fst (compress (SH := Reference.codec) Reference.alice_jpg
                     Reference.draw Reference.empty)))
     = Some (JStr "jpg")
  /\ (format <$> history (snd (compress (SH := Reference.codec) Reference.alice_jpg
                                 Reference.draw Reference.empty)) !! "65aa01b2c3d4e5f6a7b8c9d0")
     = Some "jpg"
  /\ "jpg" <> "jpeg".
Proof.
  repeat split; try (vm_compute; reflexivity). discriminate.
Qed.

(** The theorem at that request. *)
Lemma format_resolution_and_naming_witness :
  field "format"
    (body (fst (compress (SH := Reference.codec) Reference.alice_jpg
                  Reference.draw Reference.empty)))
  = Some (JStr (outputFormat (Some "JPG")))
  /\ target Reference.alice_jpg Reference.draw = "3f2c" ++ "." ++ extension "jpg".
Proof.
  destruct (format_resolution_and_naming (SH := Reference.codec)
              Reference.alice_jpg Reference.draw Reference.empty _ _
              (surjective_pairing _) eq_refl)
    as (_ & (Hn & _) & (Hf & _)).
  split; [exact Hf | exact Hn].
Defined.

(** ** Ratio and savings *)

(** Below one the digits are those of the nearest integer to the scaled
    value, the larger one on a tie. *)
Lemma scaled_round_nearest (f : nat) (m : positive) (e : Z) :
  e < 0 ->
  - 2 ^ (- e)
  <= 2 * (Z.pos m * 10 ^ Z.of_nat f) - 2 * JS.scaled_round f m e * 2 ^ (- e)
  < 2 ^ (- e).
Proof.
  intros He. unfold JS.scaled_round.
  replace (0 <=? e) with false by (symmetry; apply Z.leb_gt; lia).
  replace (1 - e) with (Z.succ (- e)) by lia.
  rewrite Z.pow_succ_r by lia.
  assert (D : 0 < 2 ^ (- e)) by (apply Z.pow_pos_nonneg; lia).
  set (d := 2 ^ (- e)) in *. set (v := Z.pos m * 10 ^ Z.of_nat f).
  pose proof (Z.div_mod (2 * v + d) (2 * d) ltac:(lia)) as E.
  pose proof (Z.mod_pos_bound (2 * v + d) (2 * d) ltac:(lia)) as B.
  nia.
Qed.

(** From one on the scaled value is an integer and is written as it is. *)
Lemma scaled_round_exact (f : nat) (m : positive) (e : Z) :
  0 <= e -> JS.scaled_round f m e = Z.pos m * 10 ^ Z.of_nat f * 2 ^ e.
Proof.
  intros He. unfold JS.scaled_round.
  replace (0 <=? e) with true by (symmetry; apply Z.leb_le; lia).
  reflexivity.
Qed.

(** [formatFileSize] has no case for a negative size: the logarithm is
    [NaN] and so are the number and the unit's index. *)
Lemma formatFileSize_negative (bytes : Z) :
  bytes < 0 -> formatFileSize bytes = "NaN undefined".
Proof.
  intros H. unfold formatFileSize, floor_log1024.
  replace (bytes =? 0) with false by (symmetry; apply Z.eqb_neq; lia).
  replace (bytes <? 0) with true by (symmetry; apply Z.ltb_lt; lia).
  reflexivity.
Qed.

Section Metrics.

Context {SH : Sharp}.

(** A compression answered 200 reports
    [compressionRatio] as the text of [toFixed(2)] of the binary64 value of
    [(originalSize - compressedSize) / originalSize * 100] - a string, not a
    number - next to the two sizes and the [savings] text of
    [formatFileSize]; the record saved for an identified request holds that
    text read back as a number.  Nothing of this depends on the compressed
    size being the smaller one. *)
Theorem ratio_reported_as_fixed_text
    (req : CompressRequest) (rnd : Fresh) (st st' : State) (resp : Response) :
  compress req rnd st = (resp, st') ->
  status resp = 200 ->
  exists file meta cd buf,
    req_file req = Some file
    /\ encode file (req_body req) = Ok (meta, cd, buf)
    /\ field "originalSize" (body resp) = Some (JNum (size file))
    /\ field "compressedSize" (body resp) = Some (JNum (Z.of_nat (List.length buf)))
    /\ field "compressionRatio" (body resp)
       = Some (JStr (JS.toFixed 2 (ratio (size file) (Z.of_nat (List.length buf)))))
    /\ field "savings" (body resp)
       = Some (JStr (formatFileSize (size file - Z.of_nat (List.length buf))))
    /\ forall user,
         req_user req = Some user ->
         exists r,
           history st' !! objectId rnd = Some r
           /\ originalSize r = size file
           /\ compressedSize r = Z.of_nat (List.length buf)
           /\ compressionRatio r
              = JS.parseFloat
                  (JS.toFixed 2 (ratio (size file) (Z.of_nat (List.length buf)))).
Proof.
  intros H Hs.
  destruct (compress_success req rnd st st' resp H Hs)
    as (file & meta & cd & buf & written & Hf & He & Ht & Hup & Hb & Hrec).
  destruct (result_fields req rnd file meta cd buf)
    as (_ & Fo & Fc & Fr & Fs & _ & _).
  exists file, meta, cd, buf. rewrite Hb.
  split; [assumption |]. split; [assumption |]. split; [assumption |].
  split; [assumption |]. split; [assumption |]. split; [assumption |].
  intros user Hu. rewrite Hu in Hrec. destruct Hrec as (_ & Hh & _).
  exists (record_of req rnd user file meta cd buf).
  rewrite Hh, lookup_insert_eq. repeat split; reflexivity.
Qed.

End Metrics.

(** The kind of the value: alice's request whose output
    (204 bytes) is larger than her upload (184 bytes) is answered 200 with
    the ratio as the string [-10.87], which is not a JSON number. *)
Lemma ratio_is_a_string :
  status (fst (compress (SH := Reference.codec) Reference.alice_webp
                 Reference.draw Reference.empty)) = 200
  /\ field "compressionRatio"
       (body (fst (compress (SH := Reference.codec) Reference.alice_webp
                     Reference.draw Reference.empty)))
     = Some (JStr "-10.87")
  /\ is_number (JStr "-10.87") = false.
Proof. repeat split; vm_compute; reflexivity. Qed.

(** The theorem at that request, whose compressed size exceeds the original
    one. *)
Lemma ratio_reported_as_fixed_text_witness :
  exists file meta cd buf,
    req_file Reference.alice_webp = Some file
    /\ encode (SH := Reference.codec) file (req_body Reference.alice_webp)
       = Ok (meta, cd, buf)
    /\ size file < Z.of_nat (List.length buf)
    /\ field "compressionRatio"
         (body (fst (compress (SH := Reference.codec) Reference.alice_webp
                       Reference.draw Reference.empty)))
       = Some (JStr (JS.toFixed 2 (ratio (size file) (Z.of_nat (List.length buf))))).
Proof.
  destruct (ratio_reported_as_fixed_text (SH := Reference.codec)
              Reference.alice_webp Reference.draw Reference.empty _ _
              (surjective_pairing _) eq_refl)
    as (file & meta & cd & buf & Hf & He & _ & _ & Hr & _).
  exists file, meta, cd, buf.
  split; [exact Hf |]. split; [exact He |]. split; [| exact Hr].
  vm_compute in Hf. inversion Hf; subst file.
  vm_compute in He. inversion He; subst buf.
  vm_compute. reflexivity.
Defined.

(** ** A size increase *)

Lemma formatFileSize_below_zero (bytes : Z) :
  bytes < 0 -> formatFileSize bytes = "NaN undefined".
Proof.
  intros H. unfold formatFileSize, floor_log1024.
  replace (bytes =? 0) with false by (symmetry; apply Z.eqb_neq; lia).
  replace (bytes <? 0) with true by (symmetry; apply Z.ltb_lt; lia).
  reflexivity.
Qed.

Section SizeIncrease.

Context {SH : Sharp}.

(** A request whose codec calls go through - and whose record, if it is an
    identified one, gets a free [_id] - is answered 200 with the result of
    the handler, whatever the two sizes are. *)
Lemma compress_completes (req : CompressRequest) (rnd : Fresh) (st : State)
    (file : File) (meta cd : Metadata) (buf written : Buffer) :
  req_file req = Some file ->
  encode file (req_body req) = Ok (meta, cd, buf) ->
  toFile (sharp buf) (target req rnd) = Ok written ->
  (forall user, req_user req = Some user -> history st !! objectId rnd = None) ->
  fst (compress req rnd st) = res_json (result_of req rnd file meta cd buf).
Proof.
  intros Hf He Ht Hfresh.
  unfold compress, try_catch, compress_body, result_of.
  rewrite Hf. unfold bind, await. rewrite He.
  unfold target in Ht. rewrite Ht.
  unfold writeFile, modify.
  destruct (req_user req) as [user |].
  - unfold save, findByIdAndUpdate, modify, ret. cbn [history uploads users].
    rewrite (Hfresh user eq_refl). reflexivity.
  - reflexivity.
Qed.

(** C2: what the code does with an output larger than the upload.  The
    request is not treated as an error: it is answered 200, from the
    outcome of the codec calls alone.  But the [savings] text of that
    response is [NaN undefined] - [formatFileSize] has no case for a
    negative number of bytes - and the ratio is sent as the string that
    [toFixed(2)] gives, not as a number. *)
Theorem size_increase_has_no_savings_text
    (req : CompressRequest) (rnd : Fresh) (st : State)
    (file : File) (meta cd : Metadata) (buf written : Buffer) :
  req_file req = Some file ->
  encode file (req_body req) = Ok (meta, cd, buf) ->
  toFile (sharp buf) (target req rnd) = Ok written ->
  (forall user, req_user req = Some user -> history st !! objectId rnd = None) ->
  size file < Z.of_nat (List.length buf) ->
  status (fst (compress req rnd st)) = 200
  /\ field "originalSize" (body (fst (compress req rnd st))) = Some (JNum (size file))
  /\ field "compressedSize" (body (fst (compress req rnd st)))
     = Some (JNum (Z.of_nat (List.length buf)))
  /\ field "savings" (body (fst (compress req rnd st))) = Some (JStr "NaN undefined")
  /\ (exists text,
        field "compressionRatio" (body (fst (compress req rnd st))) = Some (JStr text)
        /\ text = JS.toFixed 2 (ratio (size file) (Z.of_nat (List.length buf)))
        /\ is_number (JStr text) = false).
Proof.
  intros Hf He Ht Hfresh Hgrow.
  rewrite (compress_completes req rnd st file meta cd buf written Hf He Ht Hfresh).
  destruct (result_fields req rnd file meta cd buf)
    as (_ & Fo & Fc & Fr & Fs & _ & _).
  cbn [status body res_json].
  split; [reflexivity |]. split; [exact Fo |]. split; [exact Fc |]. split.
  - rewrite Fs. now rewrite formatFileSize_below_zero by lia.
  - eexists. split; [exact Fr |]. split; reflexivity.
Qed.

End SizeIncrease.

(** The theorem at alice's request whose output (204 bytes) is larger than
    her upload (184 bytes): the answer is 200, the savings read
    [NaN undefined] and the ratio is the string [-10.87]. *)
Lemma size_increase_has_no_savings_text_witness :
  status (fst (compress (SH := Reference.codec) Reference.alice_webp
                 Reference.draw Reference.empty)) = 200
  /\ field "originalSize"
       (body (fst (compress (SH := Reference.codec) Reference.alice_webp
                     Reference.draw Reference.empty)))
     = Some (JNum 184)
  /\ field "compressedSize"
       (body (fst (compress (SH := Reference.codec) Reference.alice_webp
                     Reference.draw Reference.empty)))
     = Some (JNum 204)
  /\ field "savings"
       (body (fst (compress (SH := Reference.codec) Reference.alice_webp
                     Reference.draw Reference.empty)))
     = Some (JStr "NaN undefined")
  /\ field "compressionRatio"
       (body (fst (compress (SH := Reference.codec) Reference.alice_webp
                     Reference.draw Reference.empty)))
     = Some (JStr "-10.87").
Proof.
  destruct (encode (SH := Reference.codec) Reference.upload
              (req_body Reference.alice_webp))
    as [[[meta cd] buf] | message] eqn:He; [| vm_compute in He; discriminate].
  destruct (toFile (Sharp := Reference.codec) (sharp buf)
              (target Reference.alice_webp Reference.draw))
    as [written | message] eqn:Ht;
    [| vm_compute in He; inversion He; subst; vm_compute in Ht; discriminate].
  assert (Hb : List.length buf = 204%nat)
    by (vm_compute in He; inversion He; subst; reflexivity).
  destruct (size_increase_has_no_savings_text (SH := Reference.codec)
              Reference.alice_webp Reference.draw Reference.empty
              Reference.upload meta cd buf written eq_refl He Ht)
    as (Hs & Fo & Fc & Fs & text & Fr & Et & _).
  - intros user _. reflexivity.
  - rewrite Hb. vm_compute. reflexivity.
  - rewrite Hb in Fc, Et.
    split; [exact Hs |]. split; [exact Fo |]. split; [exact Fc |].
    split; [exact Fs |]. rewrite Fr, Et. vm_compute. reflexivity.
Defined.

(** ** Where the handlers part from their contract *)

(** C1: the artifact is not the encoded buffer.  The handler passes the
    encoded bytes through a second pipeline, [sharp(compressedBuffer)
    .toFile(outputPath)], and what that pipeline encodes for the extension is
    what is stored.  On the small codec, the request with quality 10 and
    format [jpg] encodes 24 bytes and reports 24 as [compressedSize], while
    the file [3f2c.jpeg] holds the 164 bytes of the second encoding. *)
Lemma artifact_is_a_second_encoding :
  exists meta cd buf written,
    encode (SH := Reference.codec) Reference.upload (req_body Reference.anonymous_jpg)
    = Ok (meta, cd, buf)
    /\ status (fst (compress (SH := Reference.codec) Reference.anonymous_jpg
                      Reference.draw Reference.empty)) = 200
    /\ field "compressedSize"
         (body (fst (compress (SH := Reference.codec) Reference.anonymous_jpg
                       Reference.draw Reference.empty)))
       = Some (JNum (Z.of_nat (List.length buf)))
    /\ toFile (Sharp := Reference.codec) (sharp buf) "3f2c.jpeg" = Ok written
    /\ uploads (snd (compress (SH := Reference.codec) Reference.anonymous_jpg
                       Reference.draw Reference.empty)) !! "3f2c.jpeg"
       = Some written
    /\ List.length buf = 24%nat
    /\ List.length written = 164%nat
    /\ written <> buf.
Proof.
  do 4 eexists.
  split; [vm_compute; reflexivity |].
  split; [vm_compute; reflexivity |].
  split; [vm_compute; reflexivity |].
  split; [vm_compute; reflexivity |].
  split; [vm_compute; reflexivity |].
  split; [vm_compute; reflexivity |].
  split; [vm_compute; reflexivity |].
  intros E. apply (f_equal (@List.length _)) in E. vm_compute in E. discriminate.
Qed.

(** C3: a quality that parses to zero is not clamped to 10.  [parseInt("0")]
    is 0, which [||] takes for a missing value, so the quality resolves to 80,
    while its neighbours -1 and 1 are clamped to 10. *)
Lemma quality_zero_resolves_to_default :
  JS.parseInt "0" = Some 0
  /\ qualityValue (Some "0") = 80
  /\ Z.min 100 (Z.max 10 0) = 10
  /\ qualityValue (Some "-1") = 10
  /\ qualityValue (Some "1") = 10.
Proof. repeat split; reflexivity. Qed.

(** C6: a page or a limit of zero is not refused.  [parseInt("0") || 1] is 1
    and [parseInt("0") || 10] is 10, so the listing is answered 200 with page
    1 (limit 10), while -1 is answered 400. *)
Lemma page_zero_is_accepted :
  JS.parseInt "0" = Some 0
  /\ page_of (mkHistoryQuery (Some "0") None None None) = 1
  /\ status (fst (getHistory (mkHistoryQuery (Some "0") None None None)
                    Reference.alice Reference.after_alice)) = 200
  /\ limit_of (mkHistoryQuery None (Some "0") None None) = 10
  /\ status (fst (getHistory (mkHistoryQuery None (Some "0") None None)
                    Reference.alice Reference.after_alice)) = 200
  /\ status (fst (getHistory (mkHistoryQuery (Some "-1") None None None)
                    Reference.alice Reference.after_alice)) = 400.
Proof. repeat split; vm_compute; reflexivity. Qed.

(** C8: the deletion of the file is not scoped to its owner.  bob's cleanup of
    the name of alice's artifact is answered 200 and removes the file, while
    alice's record of it stays. *)
Lemma cleanup_deletes_a_foreign_artifact :
  (userId <$> history Reference.after_alice !! "65aa01b2c3d4e5f6a7b8c9d0") = Some "a11ce"
  /\ (compressedFilename <$> history Reference.after_alice !! "65aa01b2c3d4e5f6a7b8c9d0")
     = Some "3f2c.png"
  /\ is_Some (uploads Reference.after_alice !! "3f2c.png")
  /\ jwt_userId Reference.bob = "b0b"
  /\ status (fst (cleanup "3f2c.png" Reference.bob Reference.after_alice)) = 200
  /\ uploads (snd (cleanup "3f2c.png" Reference.bob Reference.after_alice))
       !! "3f2c.png" = None
  /\ history (snd (cleanup "3f2c.png" Reference.bob Reference.after_alice))
     = history Reference.after_alice.
Proof.
  split; [vm_compute; reflexivity |].
  split; [vm_compute; reflexivity |].
  split; [vm_compute; eauto |].
  split; [reflexivity |].
  split; [vm_compute; reflexivity |].
  split; [vm_compute; reflexivity |].
  vm_compute; reflexivity.
Qed.

(** ** Further properties of the handlers *)

(** The resolved quality, input by input: always within [10, 100]; 80 for an
    absent field, for a string [parseInt] cannot read and for one it reads as
    zero; the clamped value otherwise. *)
Theorem quality_resolution (quality : option string) :
  10 <= qualityValue quality <= 100
  /\ qualityValue quality
     = match quality with
       | None => 80
       | Some s =>
           match JS.parseInt s with
           | None => 80
           | Some n => if n =? 0 then 80 else Z.min 100 (Z.max 10 n)
           end
       end.
Proof.
  split; [apply qualityValue_range |].
  destruct quality as [s |]; [| reflexivity].
  destruct (JS.parseInt s) as [n |] eqn:E.
  - destruct (n =? 0) eqn:Z0.
    + apply Z.eqb_eq in Z0. subst n. now apply qualityValue_parsed_zero.
    + apply Z.eqb_neq in Z0. now apply qualityValue_clamped.
  - now apply qualityValue_unparsable.
Qed.

(** The witness of [compress_encode_throws]: a height of zero makes the codec
    throw, the request is answered 500 and the state is the one before. *)
Lemma compress_encode_throws_witness :
  compress (SH := Reference.codec) Reference.zero_height Reference.draw Reference.empty
  = (res_status_json 500
       (JObj [("error", JStr "Compression failed");
              ("message", JStr "Expected positive integer for width or height")]),
     Reference.empty).
Proof.
  apply (compress_encode_throws (SH := Reference.codec) Reference.zero_height
           Reference.draw Reference.empty Reference.upload).
  - reflexivity.
  - vm_compute. reflexivity.
Defined.

Section Artifact.

Context {SH : Sharp}.

(** The artifact of a request answered 200 is what the second pipeline,
    [sharp(compressedBuffer).toFile(..)], made of the encoded bytes; it is
    stored under the drawn uuid and the extension of the resolved format,
    while the size reported is the length of the encoded bytes. *)
Theorem artifact_is_second_pass_output
    (req : CompressRequest) (rnd : Fresh) (st st' : State) (resp : Response) :
  compress req rnd st = (resp, st') ->
  status resp = 200 ->
  exists file meta cd buf written,
    req_file req = Some file
    /\ encode file (req_body req) = Ok (meta, cd, buf)
    /\ toFile (sharp buf) (target req rnd) = Ok written
    /\ uploads st' !! target req rnd = Some written
    /\ (forall name, name <> target req rnd -> uploads st' !! name = uploads st !! name)
    /\ target req rnd
       = uuid rnd ++ "." ++ extension (outputFormat (raw_format (req_body req)))
    /\ field "compressedSize" (body resp) = Some (JNum (Z.of_nat (List.length buf))).
Proof.
  intros H Hs.
  destruct (compress_success req rnd st st' resp H Hs)
    as (file & meta & cd & buf & written & Hf & He & Ht & Hup & Hb & _).
  exists file, meta, cd, buf, written.
  split; [assumption |]. split; [assumption |]. split; [assumption |].
  split; [rewrite Hup; apply lookup_insert_eq |].
  split; [intros name Hn; rewrite Hup; now apply lookup_insert_ne |].
  split; [reflexivity |].
  rewrite Hb. reflexivity.
Qed.

End Artifact.

Lemma artifact_is_second_pass_output_witness :
  exists file meta cd buf written,
    req_file Reference.anonymous_jpg = Some file
    /\ encode (SH := Reference.codec) file (req_body Reference.anonymous_jpg)
       = Ok (meta, cd, buf)
    /\ toFile (Sharp := Reference.codec) (sharp buf)
         (target Reference.anonymous_jpg Reference.draw) = Ok written
    /\ uploads (snd (compress (SH := Reference.codec) Reference.anonymous_jpg
                       Reference.draw Reference.empty))
         !! target Reference.anonymous_jpg Reference.draw = Some written
    /\ (forall name,
          name <> target Reference.anonymous_jpg Reference.draw ->
          uploads (snd (compress (SH := Reference.codec) Reference.anonymous_jpg
                          Reference.draw Reference.empty)) !! name
          = uploads Reference.empty !! name)
    /\ target Reference.anonymous_jpg Reference.draw
       = uuid Reference.draw ++ "."
         ++ extension (outputFormat (raw_format (req_body Reference.anonymous_jpg)))
    /\ field "compressedSize"
         (body (fst (compress (SH := Reference.codec) Reference.anonymous_jpg
                       Reference.draw Reference.empty)))
       = Some (JNum (Z.of_nat (List.length buf))).
Proof.
  apply (artifact_is_second_pass_output (SH := Reference.codec)
           Reference.anonymous_jpg Reference.draw Reference.empty _ _
           (surjective_pairing _)).
  reflexivity.
Defined.

(** A sort field outside the four is refused with 400, whatever the page and
    the limit, and nothing changes. *)
Theorem invalid_sortBy_is_refused (q : HistoryQuery) (user : Identity) (st : State) :
  ~ In (sortBy_of q) validSortFields ->
  status (fst (getHistory q user st)) = 400
  /\ snd (getHistory q user st) = st.
Proof.
  intros H. split; [| apply getHistory_keeps_state].
  now rewrite (getHistory_invalid_sortBy q user st H).
Qed.

Lemma invalid_sortBy_is_refused_witness :
  status (fst (getHistory (mkHistoryQuery None None (Some "format") None)
                 Reference.alice Reference.after_alice)) = 400
  /\ snd (getHistory (mkHistoryQuery None None (Some "format") None)
            Reference.alice Reference.after_alice)
     = Reference.after_alice.
Proof.
  apply invalid_sortBy_is_refused.
  cbn. intros [H | [H | [H | [H | []]]]]; discriminate.
Defined.

(** A page or a limit that resolves below one is refused with 400. *)
Theorem not_positive_is_refused (q : HistoryQuery) (user : Identity) (st : State) :
  In (sortBy_of q) validSortFields ->
  page_of q < 1 \/ limit_of q < 1 ->
  status (fst (getHistory q user st)) = 400.
Proof.
  intros Hs Hp. now rewrite (getHistory_not_positive q user st Hs Hp).
Qed.

Lemma not_positive_is_refused_witness :
  status (fst (getHistory (mkHistoryQuery (Some "3") (Some "-5") None None)
                 Reference.alice Reference.after_alice)) = 400.
Proof.
  apply not_positive_is_refused.
  - cbn. tauto.
  - right. vm_compute. reflexivity.
Defined.

(** A listing that passes validation, with a page, a limit and a number of
    records that JavaScript numbers hold exactly (below 2^53), is answered
    200 with the resolved page, limit, field and order, the number of the
    requester's records as total, and as pages the least number of pages of
    [limit] entries that hold them. *)
Theorem pages_is_ceiling (q : HistoryQuery) (user : Identity) (st : State) :
  safe (parseInt_param (raw_page q)) = true ->
  safe (parseInt_param (raw_limit q)) = true ->
  Z.of_nat (List.length (owned (jwt_userId user) (history st))) < 2 ^ 53 ->
  In (sortBy_of q) validSortFields ->
  1 <= page_of q -> 1 <= limit_of q ->
  exists docs pages,
    fst (getHistory q user st)
    = res_json
        (JObj [("success", JBool true);
               ("history", JArr docs);
               ("pagination",
                JObj [("page", JNum (page_of q));
                      ("limit", JNum (limit_of q));
                      ("total",
                       JNum (Z.of_nat
                               (List.length (owned (jwt_userId user) (history st)))));
                      ("pages", JNum pages);
                      ("sortBy", JStr (sortBy_of q));
                      ("sortOrder",
                       JStr (if sortOrder_of q =? 1 then "asc" else "desc"))])])
    /\ (pages - 1) * limit_of q
       < Z.of_nat (List.length (owned (jwt_userId user) (history st)))
       <= pages * limit_of q.
Proof.
  intros _ _ _ Hs Hp Hl.
  destruct (getHistory_success q user st Hs Hp Hl) as [docs E].
  exists docs, (ceil_div (Z.of_nat (List.length (owned (jwt_userId user) (history st))))
                         (limit_of q)).
  split; [exact E |]. apply ceil_div_bounds. lia.
Qed.

Lemma pages_is_ceiling_witness :
  exists docs pages,
    fst (getHistory (mkHistoryQuery None None None None)
           Reference.alice Reference.after_alice)
    = res_json
        (JObj [("success", JBool true);
               ("history", JArr docs);
               ("pagination",
                JObj [("page", JNum 1);
                      ("limit", JNum 10);
                      ("total",
                       JNum (Z.of_nat
                               (List.length (owned "a11ce"
                                               (history Reference.after_alice)))));
                      ("pages", JNum pages);
                      ("sortBy", JStr "createdAt");
                      ("sortOrder", JStr "desc")])])
    /\ (pages - 1) * 10
       < Z.of_nat (List.length (owned "a11ce" (history Reference.after_alice)))
       <= pages * 10.
Proof.
  apply (pages_is_ceiling (mkHistoryQuery None None None None)
           Reference.alice Reference.after_alice).
  - reflexivity.
  - reflexivity.
  - vm_compute. reflexivity.
  - cbn. tauto.
  - vm_compute. discriminate.
  - vm_compute. discriminate.
Defined.

(** Cleanup of a name that is one path segment is answered 404 exactly when
    no file of the name is in the uploads directory, whether or not a record
    matched; otherwise it is answered 200 and the file is gone. *)
Theorem cleanup_not_found_iff_no_file (filename : string) (user : Identity) (st : State) :
  is_segment filename = true ->
  (status (fst (cleanup filename user st)) = 404 <-> uploads st !! filename = None)
  /\ (status (fst (cleanup filename user st)) = 200 <-> is_Some (uploads st !! filename))
  /\ uploads (snd (cleanup filename user st)) !! filename = None
  /\ users (snd (cleanup filename user st)) = users st.
Proof.
  intros _.
  destruct (uploads st !! filename) as [data |] eqn:E.
  - rewrite (cleanup_file_present filename user st data E).
    cbn [fst snd status file_deleted res_json uploads users].
    repeat split; try discriminate; eauto; apply lookup_delete_eq.
  - rewrite (cleanup_file_missing filename user st E).
    cbn [fst snd status file_not_found res_status_json uploads users].
    repeat split; try discriminate; try assumption; try reflexivity.
    intros [? H]. discriminate.
Qed.

(** The theorem at alice's cleanup of her artifact, which is on disk, and of
    a name that is not. *)
Lemma cleanup_not_found_iff_no_file_witness :
  status (fst (cleanup "3f2c.png" Reference.alice Reference.after_alice)) = 200
  /\ status (fst (cleanup "0000.png" Reference.alice Reference.after_alice)) = 404.
Proof.
  split.
  - apply (cleanup_not_found_iff_no_file "3f2c.png" Reference.alice
             Reference.after_alice eq_refl).
    vm_compute. eauto.
  - apply (cleanup_not_found_iff_no_file "0000.png" Reference.alice
             Reference.after_alice eq_refl).
    vm_compute. reflexivity.
Defined.

(** The ratio is rounded from the binary64 value, not from the exact
    quotient: for 20000 bytes compressed to 19797 the exact ratio is 1.015,
    halfway between 1.01 and 1.02, its binary64 value lies below, and the
    text is [1.01]. *)
Lemma ratio_rounds_the_binary64_value :
  JS.toFixed 2 (ratio 20000 19797) = "1.01"
  /\ 2 * (10000 * (20000 - 19797)) = (2 * 101 + 1) * 20000.
Proof. split; vm_compute; reflexivity. Qed.

Lemma formatFileSize_negative_witness : formatFileSize (184 - 204) = "NaN undefined".
Proof. apply formatFileSize_negative. lia. Defined.

Lemma scaled_round_nearest_witness :
  - 2 ^ (- (-52))
  <= 2 * (4571153621781053 * 10 ^ Z.of_nat 2)
     - 2 * JS.scaled_round 2 4571153621781053 (-52) * 2 ^ (- (-52))
  < 2 ^ (- (-52)).
Proof. apply scaled_round_nearest. lia. Defined.

(** ** The listing is sorted and holds the requester's records *)

Section InsertionSort.

Variable le : CompressionHistory -> CompressionHistory -> bool.
Hypothesis le_total : forall a b, le a b = true \/ le b a = true.
Hypothesis le_trans : forall a b c, le a b = true -> le b c = true -> le a c = true.

Let R (x y : string * CompressionHistory) : Prop := le (snd x) (snd y) = true.

Lemma insert_sorted_Forall (P : string * CompressionHistory -> Prop)
    (x : string * CompressionHistory) (l : list (string * CompressionHistory)) :
  P x -> Forall P l -> Forall P (insert_sorted le x l).
Proof.
  intros Hx Hl. induction Hl as [| y rest Hy Hrest IH]; cbn.
  - constructor; [assumption | constructor].
  - destruct (le (snd x) (snd y)); repeat constructor; assumption.
Qed.

Lemma insert_sorted_StronglySorted
    (x : string * CompressionHistory) (l : list (string * CompressionHistory)) :
  StronglySorted R l -> StronglySorted R (insert_sorted le x l).
Proof.
  intros Hl. induction Hl as [| y rest Hrest IH Hy]; cbn.
  - repeat constructor.
  - destruct (le (snd x) (snd y)) eqn:E.
    + constructor; [constructor; assumption |].
      constructor; [exact E |].
      eapply Forall_impl; [exact Hy |].
      intros z Hz. exact (le_trans _ _ _ E Hz).
    + constructor; [exact IH |].
      apply insert_sorted_Forall; [| exact Hy].
      destruct (le_total (snd x) (snd y)) as [H | H]; [congruence | exact H].
Qed.

Lemma fold_insert_StronglySorted (l : list (string * CompressionHistory)) :
  StronglySorted R (List.fold_right (insert_sorted le) [] l).
Proof.
  induction l as [| x l IH]; cbn.
  - constructor.
  - now apply insert_sorted_StronglySorted.
Qed.

Lemma fold_insert_Forall (P : string * CompressionHistory -> Prop)
    (l : list (string * CompressionHistory)) :
  Forall P l -> Forall P (List.fold_right (insert_sorted le) [] l).
Proof.
  intros Hl. induction Hl as [| x l Hx Hl IH]; cbn.
  - constructor.
  - now apply insert_sorted_Forall.
Qed.

End InsertionSort.

Lemma key_le_total (sortBy : string) (a b : CompressionHistory) :
  sortBy <> "compressionRatio" ->
  key_le sortBy a b = true \/ key_le sortBy b a = true.
Proof.
  intros H. unfold key_le.
  apply String.eqb_neq in H. rewrite H.
  destruct (String.eqb sortBy "originalSize");
    [| destruct (String.eqb sortBy "compressedSize")];
    rewrite !Z.leb_le; lia.
Qed.

Lemma key_le_trans (sortBy : string) (a b c : CompressionHistory) :
  sortBy <> "compressionRatio" ->
  key_le sortBy a b = true -> key_le sortBy b c = true -> key_le sortBy a c = true.
Proof.
  intros H. unfold key_le.
  apply String.eqb_neq in H. rewrite H.
  destruct (String.eqb sortBy "originalSize");
    [| destruct (String.eqb sortBy "compressedSize")];
    rewrite !Z.leb_le; lia.
Qed.

Lemma owned_Forall (user : string) (h : gmap string CompressionHistory) :
  Forall (fun d => userId (snd d) = user /\ h !! fst d = Some (snd d)) (owned user h).
Proof.
  unfold owned. apply Forall_forall. intros [id r] Hin.
  apply list_elem_of_In, List.filter_In in Hin as [Hin Hu].
  apply String.eqb_eq in Hu.
  apply list_elem_of_In, elem_of_map_to_list in Hin. now split.
Qed.

Lemma insert_sorted_perm (le : CompressionHistory -> CompressionHistory -> bool)
    (x : string * CompressionHistory) (l : list (string * CompressionHistory)) :
  insert_sorted le x l ≡ₚ x :: l.
Proof.
  induction l as [| y l IH]; [reflexivity |].
  cbn [insert_sorted]. destruct (le (snd x) (snd y)); [reflexivity |].
  rewrite IH. apply perm_swap.
Qed.

Lemma sort_perm (sortBy : string) (sortOrder : Z)
    (l : list (string * CompressionHistory)) :
  sort sortBy sortOrder l ≡ₚ l.
Proof.
  unfold sort. induction l as [| x l IH]; [reflexivity |].
  cbn [List.fold_right]. rewrite insert_sorted_perm. now constructor.
Qed.

Lemma key_le_sort_key (sortBy : string) (a b : CompressionHistory) :
  sortBy <> "compressionRatio" ->
  key_le sortBy a b = (sort_key sortBy a <=? sort_key sortBy b).
Proof.
  intros H. unfold key_le, sort_key.
  apply String.eqb_neq in H. rewrite H.
  destruct (String.eqb sortBy "originalSize");
    [| destruct (String.eqb sortBy "compressedSize")]; reflexivity.
Qed.

Lemma precedes_antisym (sortBy : string) (sortOrder : Z) (a b : CompressionHistory) :
  sortBy <> "compressionRatio" ->
  precedes sortBy sortOrder a b = true ->
  precedes sortBy sortOrder b a = true ->
  sort_key sortBy a = sort_key sortBy b.
Proof.
  intros H. unfold precedes.
  rewrite !(key_le_sort_key sortBy) by exact H.
  destruct (sortOrder =? 1); rewrite !Z.leb_le; lia.
Qed.

Lemma distinct_NoDup (l : list Z) : distinct l = true -> List.NoDup l.
Proof.
  induction l as [| k l IH]; cbn [distinct]; [constructor |].
  intros H. apply andb_true_iff in H as [Hk Hl].
  constructor; [| now apply IH].
  intros Hin. apply negb_true_iff in Hk.
  assert (E : existsb (Z.eqb k) l = true)
    by (apply existsb_exists; exists k; split; [exact Hin | apply Z.eqb_refl]).
  congruence.
Qed.

(** With pairwise different values there is one sorted arrangement only. *)
Lemma sorted_arrangement_unique (sortBy : string) (sortOrder : Z)
    (l1 l2 : list (string * CompressionHistory)) :
  sortBy <> "compressionRatio" ->
  List.NoDup (List.map (fun d => sort_key sortBy (snd d)) l1) ->
  l1 ≡ₚ l2 ->
  StronglySorted (fun x y => precedes sortBy sortOrder (snd x) (snd y) = true) l1 ->
  StronglySorted (fun x y => precedes sortBy sortOrder (snd x) (snd y) = true) l2 ->
  l1 = l2.
Proof.
  intros Hs. revert l2.
  induction l1 as [| x l1 IH]; intros l2 Hnd Hp S1 S2.
  - now apply Permutation_nil in Hp.
  - destruct l2 as [| y l2].
    { symmetry in Hp. now apply Permutation_nil in Hp. }
    apply StronglySorted_inv in S1 as [S1 F1].
    apply StronglySorted_inv in S2 as [S2 F2].
    cbn [List.map] in Hnd. apply List.NoDup_cons_iff in Hnd as [Hx Hnd].
    assert (E : x = y).
    { assert (Hy : In y (x :: l1))
        by (apply (Permutation_in y (Permutation_sym Hp)); now left).
      destruct Hy as [Hy | Hy]; [exact Hy |].
      assert (Hx' : In x (y :: l2)) by (apply (Permutation_in x Hp); now left).
      destruct Hx' as [Hx' | Hx']; [now symmetry |].
      exfalso. apply Hx.
      rewrite Forall_forall in F1, F2.
      pose proof (F1 y (proj2 (list_elem_of_In _ _) Hy)) as R1.
      pose proof (F2 x (proj2 (list_elem_of_In _ _) Hx')) as R2.
      rewrite (precedes_antisym sortBy sortOrder _ _ Hs R1 R2).
      apply (List.in_map (fun d => sort_key sortBy (snd d))). exact Hy. }
    subst y. f_equal.
    apply IH; try assumption.
    now apply Permutation_cons_inv in Hp.
Qed.

(** The documents of a listing sorted on one of the three integer fields
    (creation time, original size, compressed size), when no two of the
    requester's records have the same value in that field: they come in the
    requested order, each is a record of the collection owned by the
    requester, and they are the part from [skip] on, of at most [limit]
    documents, of every arrangement of the requester's records in that
    order - the result does not depend on how the database sorts. *)
Theorem listing_is_sorted (user sortBy : string) (sortOrder skip limit : Z)
    (st : State) (docs : list (string * CompressionHistory)) :
  sortBy <> "compressionRatio" ->
  distinct (List.map (fun d => sort_key sortBy (snd d)) (owned user (history st)))
  = true ->
  fst (find user sortBy sortOrder skip limit st) = Ok docs ->
  StronglySorted
    (fun x y => precedes sortBy sortOrder (snd x) (snd y) = true) docs
  /\ Forall (fun d => userId (snd d) = user /\ history st !! fst d = Some (snd d)) docs
  /\ (forall arrangement,
        arrangement ≡ₚ owned user (history st) ->
        StronglySorted
          (fun x y => precedes sortBy sortOrder (snd x) (snd y) = true) arrangement ->
        docs = firstn (Z.to_nat limit) (skipn (Z.to_nat skip) arrangement)).
Proof.
  intros Hs Hd H. unfold find, gets in H. cbn [fst] in H.
  inversion H; subst docs; clear H.
  set (sorted := sort sortBy sortOrder (owned user (history st))).
  assert (Htot : forall a b,
             precedes sortBy sortOrder a b = true \/ precedes sortBy sortOrder b a = true).
  { intros a b. unfold precedes.
    destruct (sortOrder =? 1); [| apply or_comm]; now apply key_le_total. }
  assert (Htr : forall a b c,
             precedes sortBy sortOrder a b = true ->
             precedes sortBy sortOrder b c = true ->
             precedes sortBy sortOrder a c = true).
  { intros a b c. unfold precedes. destruct (sortOrder =? 1).
    - now apply key_le_trans.
    - intros H1 H2. exact (key_le_trans sortBy c b a Hs H2 H1). }
  assert (S0 : StronglySorted
                 (fun x y => precedes sortBy sortOrder (snd x) (snd y) = true) sorted).
  { apply fold_insert_StronglySorted; assumption. }
  assert (F0 : Forall (fun d => userId (snd d) = user
                                /\ history st !! fst d = Some (snd d)) sorted).
  { apply fold_insert_Forall, owned_Forall. }
  split; [| split].
  - pose proof S0 as S1.
    rewrite <- (firstn_skipn (Z.to_nat skip) sorted) in S1.
    apply StronglySorted_app_1_r in S1.
    rewrite <- (firstn_skipn (Z.to_nat limit) (skipn (Z.to_nat skip) sorted)) in S1.
    now apply StronglySorted_app_1_l in S1.
  - pose proof F0 as F1.
    rewrite <- (firstn_skipn (Z.to_nat skip) sorted) in F1.
    apply Forall_app in F1 as [_ F1].
    rewrite <- (firstn_skipn (Z.to_nat limit) (skipn (Z.to_nat skip) sorted)) in F1.
    now apply Forall_app in F1 as [F1 _].
  - intros arrangement Hp Sa.
    assert (E : sorted = arrangement).
    { apply (sorted_arrangement_unique sortBy sortOrder); try assumption.
      - apply (Permutation_NoDup
                 (l := List.map (fun d => sort_key sortBy (snd d))
                         (owned user (history st)))).
        + apply Permutation_map. symmetry. apply sort_perm.
        + now apply distinct_NoDup.
      - unfold sorted. rewrite sort_perm. now symmetry. }
    now rewrite E.
Qed.

(** The theorem at alice's three records, which the collection holds in the
    order 200, 300, 100 of their original sizes, listed by original size, two
    to the page: the first page holds the records of 100 and of 200 bytes. *)
Lemma listing_is_sorted_witness :
  exists docs,
    fst (find "a11ce" "originalSize" 1 0 2 Reference.three_records) = Ok docs
    /\ List.map (fun d => originalSize (snd d))
         (owned "a11ce" (history Reference.three_records))
       = [200; 300; 100]
    /\ List.map (fun d => originalSize (snd d)) docs = [100; 200]
    /\ StronglySorted
         (fun x y => precedes "originalSize" 1 (snd x) (snd y) = true) docs
    /\ Forall (fun d => userId (snd d) = "a11ce"
                        /\ history Reference.three_records !! fst d = Some (snd d)) docs.
Proof.
  eexists. split; [reflexivity |]. split; [vm_compute; reflexivity |].
  split; [vm_compute; reflexivity |].
  destruct (listing_is_sorted "a11ce" "originalSize" 1 0 2 Reference.three_records _
              ltac:(discriminate) ltac:(vm_compute; reflexivity) eq_refl)
    as (S & F & _).
  split; assumption.
Defined.

(** ** Splitting strings *)

Lemma split_nonempty (sep : ascii) (s : string) : JS.split sep s <> [].
Proof.
  destruct s as [| c rest]; cbn; [discriminate |].
  destruct (Ascii.eqb c sep); [discriminate |].
  destruct (JS.split sep rest); discriminate.
Qed.

Lemma split_without (sep : ascii) (s : string) :
  has_char sep s = false -> JS.split sep s = [s].
Proof.
  induction s as [| c rest IH]; cbn [JS.split has_char]; [reflexivity |].
  intros H. apply orb_false_iff in H as [Hc Hrest].
  rewrite Hc, (IH Hrest). reflexivity.
Qed.

Lemma split_at_first (sep : ascii) (a b : string) :
  has_char sep a = false ->
  JS.split sep (a ++ String sep b) = a :: JS.split sep b.
Proof.
  induction a as [| c rest IH].
  - intros _. change ("" ++ String sep b) with (String sep b).
    cbn [JS.split]. now rewrite Ascii.eqb_refl.
  - intros H. cbn [has_char] in H. apply orb_false_iff in H as [Hc Hrest].
    change (String c rest ++ String sep b) with (String c (rest ++ String sep b)).
    cbn [JS.split]. rewrite Hc, (IH Hrest). reflexivity.
Qed.

Lemma token_of_second_word (scheme tok : string) :
  has_char " " scheme = false -> has_char " " tok = false ->
  token_of (Some (scheme ++ " " ++ tok)) = Some tok.
Proof.
  intros Hs Ht. unfold token_of.
  replace (String.eqb (scheme ++ " " ++ tok) "") with false.
  - change (scheme ++ " " ++ tok) with (scheme ++ String " " tok).
    rewrite (split_at_first " " scheme tok Hs), (split_without " " tok Ht).
    reflexivity.
  - symmetry. apply String.eqb_neq. destruct scheme; discriminate.
Qed.

Lemma token_of_one_word (header : string) :
  has_char " " header = false -> truthy (token_of (Some header)) = false.
Proof.
  intros H. unfold token_of.
  destruct (String.eqb header "") eqn:E; [reflexivity |].
  rewrite (split_without " " header H). reflexivity.
Qed.

(** ** The two authentication middlewares *)

Section MiddlewareFacts.

Context {JWT : Jwt}.

(** The required and the optional middleware read the header alike: the
    first lets a request through as [u] exactly when the second attaches [u];
    the optional one never answers itself, and the required one never lets a
    request through without an identity. *)
Theorem auth_gates_agree (authorization : option string) :
  (forall u, authenticateToken authorization = next (Some u)
             <-> optionalAuth authorization = next (Some u))
  /\ (exists o, optionalAuth authorization = next o)
  /\ authenticateToken authorization <> next None.
Proof.
  unfold authenticateToken, optionalAuth.
  destruct (truthy (token_of authorization)); cbn [negb].
  - destruct (verify _) as [user |].
    + split; [| split]; [tauto | eauto | discriminate].
    + split; [| split]; [| eauto | discriminate].
      intros u. split; discriminate.
  - split; [| split]; [| eauto | discriminate].
    intros u. split; discriminate.
Qed.

(** The token is the second word of the header, whatever the first word is:
    a header of two words is handled like [Bearer] followed by its second
    word. *)
Theorem scheme_is_ignored (scheme tok : string) :
  has_char " " scheme = false -> has_char " " tok = false ->
  authenticateToken (Some (scheme ++ " " ++ tok))
  = authenticateToken (Some ("Bearer " ++ tok))
  /\ optionalAuth (Some (scheme ++ " " ++ tok)) = optionalAuth (Some ("Bearer " ++ tok)).
Proof.
  intros Hs Ht. unfold authenticateToken, optionalAuth.
  rewrite (token_of_second_word scheme tok Hs Ht).
  change ("Bearer " ++ tok) with ("Bearer" ++ " " ++ tok).
  rewrite (token_of_second_word "Bearer" tok eq_refl Ht).
  split; reflexivity.
Qed.

(** A header of one word, the bare token for instance, carries no token:
    the required middleware answers 401 and the optional one attaches
    nothing. *)
Theorem bare_token_is_refused (header : string) :
  has_char " " header = false ->
  authenticateToken (Some header)
  = answered (res_status_json 401 (JObj [("error", JStr "Access token required")]))
  /\ optionalAuth (Some header) = next None.
Proof.
  intros H. unfold authenticateToken, optionalAuth.
  rewrite (token_of_one_word header H). split; reflexivity.
Qed.

End MiddlewareFacts.

Lemma scheme_is_ignored_witness :
  authenticateToken (JWT := Tokens.jwt) (Some ("Basic" ++ " " ++ "a11ce-token"))
  = authenticateToken (JWT := Tokens.jwt) (Some ("Bearer " ++ "a11ce-token"))
  /\ optionalAuth (JWT := Tokens.jwt) (Some ("Basic" ++ " " ++ "a11ce-token"))
     = optionalAuth (JWT := Tokens.jwt) (Some ("Bearer " ++ "a11ce-token")).
Proof.
  apply (scheme_is_ignored (JWT := Tokens.jwt) "Basic" "a11ce-token"); reflexivity.
Defined.

Lemma bare_token_is_refused_witness :
  authenticateToken (JWT := Tokens.jwt) (Some "a11ce-token")
  = answered (res_status_json 401 (JObj [("error", JStr "Access token required")]))
  /\ optionalAuth (JWT := Tokens.jwt) (Some "a11ce-token") = next None.
Proof.
  apply (bare_token_is_refused (JWT := Tokens.jwt) "a11ce-token"). reflexivity.
Defined.

(** ** What the client checks and what the server accepts *)

(** A file the client's [validateFile] lets through has a type the server's
    [fileFilter] accepts and a size within the server's limit. *)
Theorem validated_file_passes_filter (type : string) (size : Z) :
  validateFile type size = Ok true ->
  fileFilter type = Ok true /\ size <= fileSize.
Proof.
  unfold validateFile.
  destruct (JS.includes _ type) eqn:E; cbn [negb]; [| discriminate].
  destruct (size >? 10 * 1024 * 1024) eqn:S; [discriminate |].
  intros _. split.
  - apply includes_In in E. cbn in E.
    destruct E as [E | [E | [E | [E | []]]]]; subst type; reflexivity.
  - unfold fileSize. lia.
Qed.

Lemma validated_file_passes_filter_witness :
  fileFilter "image/webp" = Ok true /\ 10485760 <= fileSize.
Proof. apply validated_file_passes_filter. reflexivity. Defined.

(** ** File sizes as text *)

Lemma floor_log1024_small (bytes : Z) :
  0 < bytes < 2 ^ 30 ->
  exists i, floor_log1024 bytes = Some i /\ 0 <= i <= 2
            /\ 1024 ^ i <= bytes < 1024 ^ (i + 1).
Proof.
  intros H. unfold floor_log1024.
  replace (bytes <? 0) with false by (symmetry; apply Z.ltb_ge; lia).
  exists (Z.log2 bytes / 10).
  assert (L : 0 <= Z.log2 bytes < 30).
  { split; [apply Z.log2_nonneg | apply Z.log2_lt_pow2; lia]. }
  pose proof (Z.log2_spec bytes ltac:(lia)) as S.
  pose proof (Z.div_mod (Z.log2 bytes) 10 ltac:(lia)) as D.
  pose proof (Z.mod_pos_bound (Z.log2 bytes) 10 ltac:(lia)) as M.
  set (i := Z.log2 bytes / 10) in *.
  assert (I : 0 <= i <= 2) by lia.
  split; [reflexivity |]. split; [exact I |].
  change 1024 with (2 ^ 10). rewrite <- !Z.pow_mul_r by lia.
  split.
  - apply Z.le_trans with (2 ^ Z.log2 bytes); [| lia].
    apply Z.pow_le_mono_r; lia.
  - apply Z.lt_le_trans with (2 ^ Z.succ (Z.log2 bytes)); [lia |].
    apply Z.pow_le_mono_r; lia.
Qed.

(** The client's and the server's [formatFileSize] give the same text for
    every size below 2^30 bytes, the negative ones included. *)
Theorem formatFileSize_client_agrees (bytes : Z) :
  bytes < 2 ^ 30 -> client_formatFileSize bytes = formatFileSize bytes.
Proof.
  intros H. unfold client_formatFileSize, formatFileSize.
  destruct (bytes =? 0) eqn:E0; [reflexivity |].
  apply Z.eqb_neq in E0.
  destruct (Z.ltb_spec bytes 0) as [Hneg | Hpos].
  - unfold floor_log1024. replace (bytes <? 0) with true; [reflexivity |].
    symmetry. apply Z.ltb_lt. lia.
  - destruct (floor_log1024_small bytes ltac:(lia)) as (i & Ei & Hi & _).
    rewrite Ei. f_equal. f_equal.
    assert (C : i = 0 \/ i = 1 \/ i = 2) by lia.
    destruct C as [-> | [-> | ->]]; reflexivity.
Qed.

Lemma formatFileSize_client_agrees_witness :
  client_formatFileSize 1536 = formatFileSize 1536.
Proof. apply formatFileSize_client_agrees. lia. Defined.

(** From 2^30 bytes on the server's table of units is exhausted: up to 2^40
    the text ends in [undefined] where the client's ends in [GB]. *)
Theorem formatFileSize_runs_out_of_units (bytes : Z) :
  2 ^ 30 <= bytes < 2 ^ 40 ->
  exists number,
    formatFileSize bytes = number ++ " " ++ "undefined"
    /\ client_formatFileSize bytes = number ++ " " ++ "GB".
Proof.
  intros H. unfold client_formatFileSize, formatFileSize, floor_log1024.
  replace (bytes =? 0) with false by (symmetry; apply Z.eqb_neq; lia).
  replace (bytes <? 0) with false by (symmetry; apply Z.ltb_ge; lia).
  assert (L : 30 <= Z.log2 bytes < 40).
  { split; [apply Z.log2_le_pow2; lia | apply Z.log2_lt_pow2; lia]. }
  assert (I : Z.log2 bytes / 10 = 3).
  { pose proof (Z.div_mod (Z.log2 bytes) 10 ltac:(lia)).
    pose proof (Z.mod_pos_bound (Z.log2 bytes) 10 ltac:(lia)). lia. }
  rewrite I. eexists. split; reflexivity.
Qed.

Lemma formatFileSize_runs_out_of_units_witness :
  exists number,
    formatFileSize (2 ^ 30) = number ++ " " ++ "undefined"
    /\ client_formatFileSize (2 ^ 30) = number ++ " " ++ "GB".
Proof. apply formatFileSize_runs_out_of_units. lia. Defined.

(** A size below 1024 bytes is written exactly, as its digits and the unit
    [Bytes]. *)
Theorem formatFileSize_exact_below_1024 (bytes : Z) :
  0 < bytes < 1024 -> formatFileSize bytes = JS.digits bytes ++ " Bytes".
Proof.
  intros H.
  assert (A : forallb (fun n => String.eqb (formatFileSize (Z.of_nat n))
                                           (JS.digits (Z.of_nat n) ++ " Bytes"))
                      (seq 1 1023) = true) by (vm_compute; reflexivity).
  rewrite forallb_forall in A.
  specialize (A (Z.to_nat bytes)).
  rewrite Z2Nat.id in A by lia.
  apply String.eqb_eq, A, in_seq. lia.
Qed.

Lemma formatFileSize_exact_below_1024_witness :
  formatFileSize 500 = JS.digits 500 ++ " Bytes".
Proof. apply formatFileSize_exact_below_1024. lia. Defined.

(** ** Extensions and the format the client selects *)

Lemma lower_char_dot (c : ascii) :
  Ascii.eqb (JS.lower_char c) "." = Ascii.eqb c ".".
Proof.
  destruct c as [[] [] [] [] [] [] [] []]; vm_compute; reflexivity.
Qed.

Lemma split_toLowerCase (s : string) :
  JS.split "." (JS.toLowerCase s) = List.map JS.toLowerCase (JS.split "." s).
Proof.
  induction s as [| c rest IH]; [reflexivity |].
  cbn [JS.toLowerCase JS.split]. rewrite lower_char_dot.
  destruct (Ascii.eqb c ".").
  - cbn [List.map]. now rewrite IH.
  - rewrite IH. pose proof (split_nonempty "." rest) as N.
    destruct (JS.split "." rest); [contradiction | reflexivity].
Qed.

Lemma pop_map_toLowerCase (pieces : list string) :
  JS.pop (List.map JS.toLowerCase pieces) = JS.toLowerCase (JS.pop pieces).
Proof.
  unfold JS.pop. induction pieces as [| p rest IH]; [reflexivity |].
  destruct rest as [| q rest']; [reflexivity |]. exact IH.
Qed.

Lemma pop_split_without (sep : ascii) (s : string) :
  has_char sep (JS.pop (JS.split sep s)) = false.
Proof.
  unfold JS.pop. induction s as [| c rest IH]; [reflexivity |].
  cbn [JS.split]. pose proof (split_nonempty sep rest) as N.
  destruct (Ascii.eqb c sep) eqn:E.
  - destruct (JS.split sep rest) as [| p ps]; [contradiction | exact IH].
  - destruct (JS.split sep rest) as [| p ps]; [contradiction |].
    destruct ps as [| q ps'].
    + cbn [List.last has_char] in *. now rewrite E, IH.
    + exact IH.
Qed.

Lemma has_char_toLowerCase_dot (s : string) :
  has_char "." (JS.toLowerCase s) = has_char "." s.
Proof.
  induction s as [| c rest IH]; [reflexivity |].
  cbn [JS.toLowerCase has_char]. now rewrite lower_char_dot, IH.
Qed.

(** For a file name whose code units are below 256 - the strings of this
    development, on which lower-casing works character by character - the
    extension is taken in two ways, by [getFileExtension] (split, then lower
    case) and by [handleFileSelect] (lower case, then split): both give the
    same text, which holds no dot and is in lower case.  (Beyond these code
    units the lower case of a character can depend on its neighbours, a
    capital sigma at the end of a word for one, and the two ways can
    differ.) *)
Theorem extension_two_ways (name : string) :
  getFileExtension name = fileExt name
  /\ has_char "." (getFileExtension name) = false
  /\ JS.toLowerCase (getFileExtension name) = getFileExtension name.
Proof.
  unfold getFileExtension, fileExt. split; [| split].
  - now rewrite split_toLowerCase, pop_map_toLowerCase.
  - rewrite has_char_toLowerCase_dot. apply pop_split_without.
  - apply toLowerCase_idempotent.
Qed.

(** A format the client selects from the file name is one of jpeg, png, webp
    and avif, never jpg; the server resolves it to itself and stores the
    artifact under it as extension.  The selection is not a format only when
    the extension names a member every object inherits. *)
Theorem selected_format_is_accepted (name : string) :
  (forall f, selected_format name = Some f ->
             In f ["jpeg"; "png"; "webp"; "avif"]
             /\ outputFormat (Some f) = f
             /\ extension (outputFormat (Some f)) = f)
  /\ (selected_format name = None
      <-> fileExt name = "constructor" \/ fileExt name = "__proto__").
Proof.
  unfold selected_format, formatMap.
  destruct (String.eqb (fileExt name) "jpg") eqn:E1.
  { apply String.eqb_eq in E1. rewrite E1. split.
    - intros f H. inversion H; subst f. cbn. tauto.
    - split; [discriminate | intros [H | H]; discriminate]. }
  destruct (String.eqb (fileExt name) "jpeg") eqn:E2.
  { apply String.eqb_eq in E2. rewrite E2. split.
    - intros f H. inversion H; subst f. cbn. tauto.
    - split; [discriminate | intros [H | H]; discriminate]. }
  destruct (String.eqb (fileExt name) "png") eqn:E3.
  { apply String.eqb_eq in E3. rewrite E3. split.
    - intros f H. inversion H; subst f. cbn. tauto.
    - split; [discriminate | intros [H | H]; discriminate]. }
  destruct (String.eqb (fileExt name) "webp") eqn:E4.
  { apply String.eqb_eq in E4. rewrite E4. split.
    - intros f H. inversion H; subst f. cbn. tauto.
    - split; [discriminate | intros [H | H]; discriminate]. }
  destruct (String.eqb (fileExt name) "avif") eqn:E5.
  { apply String.eqb_eq in E5. rewrite E5. split.
    - intros f H. inversion H; subst f. cbn. tauto.
    - split; [discriminate | intros [H | H]; discriminate]. }
  destruct (String.eqb (fileExt name) "constructor") eqn:E6.
  { apply String.eqb_eq in E6. split; [discriminate |]. tauto. }
  destruct (String.eqb (fileExt name) "__proto__") eqn:E7.
  { apply String.eqb_eq in E7. split; [discriminate |]. cbn [orb]. tauto. }
  apply String.eqb_neq in E6, E7. cbn [orb]. split.
  - intros f H. inversion H; subst f. cbn. tauto.
  - split; [discriminate | tauto].
Qed.

(** ** Numbers written and read back *)

Lemma radix_prefix_digits (d : Decimal.uint) (acc : Z) :
  JS.radix_prefix 10 (NilEmpty.string_of_uint d) (Some acc) = Some (uint_acc d acc).
Proof.
  revert acc. induction d; intros acc; cbn [NilEmpty.string_of_uint uint_acc];
    [reflexivity | ..]; rewrite <- IHd; reflexivity.
Qed.

Lemma of_uint_acc_value (d : Decimal.uint) (acc : positive) :
  Z.pos (Pos.of_uint_acc d acc) = uint_acc d (Z.pos acc).
Proof.
  revert acc. induction d; intros acc; cbn [Pos.of_uint_acc uint_acc];
    [reflexivity | ..]; rewrite IHd; f_equal; lia.
Qed.

Lemma of_uint_value (d : Decimal.uint) : Z.of_N (Pos.of_uint d) = uint_acc d 0.
Proof.
  induction d; cbn [Pos.of_uint uint_acc]; [reflexivity | exact IHd | ..];
    cbn [Z.of_N]; rewrite of_uint_acc_value; reflexivity.
Qed.

Lemma to_uint_nonnil (n : N) : N.to_uint n <> Decimal.Nil.
Proof.
  destruct n as [| p]; [discriminate | apply DecimalPos.Unsigned.to_uint_nonnil].
Qed.

Lemma radix_prefix_fresh (d : Decimal.uint) :
  d <> Decimal.Nil ->
  JS.radix_prefix 10 (NilEmpty.string_of_uint d) None = Some (uint_acc d 0).
Proof.
  intros H. destruct d; [contradiction | ..];
    cbn [NilEmpty.string_of_uint uint_acc];
    rewrite <- radix_prefix_digits; reflexivity.
Qed.

(** Reading a text whose first character is a decimal digit and which does
    not begin with [0x]. *)
Ltac read_digits d :=
  cbv -[JS.radix_prefix uint_acc Z.mul NilEmpty.string_of_uint];
  match goal with
  | |- context [JS.radix_prefix 10 ?s None] =>
      change s with (NilEmpty.string_of_uint d)
  end;
  rewrite radix_prefix_fresh by discriminate;
  f_equal; lia.

Lemma parseInt_digits_uint (d : Decimal.uint) :
  d <> Decimal.Nil ->
  JS.parseInt (NilEmpty.string_of_uint d) = Some (uint_acc d 0).
Proof.
  intros H.
  destruct d as [| d | d | d | d | d | d | d | d | d | d]; [contradiction | ..];
    cbn [NilEmpty.string_of_uint].
  - (* a leading zero: the next character decides on the prefix 0x *)
    destruct d as [| d | d | d | d | d | d | d | d | d | d];
      cbn [NilEmpty.string_of_uint].
    + reflexivity.
    + read_digits (Decimal.D0 (Decimal.D0 d)).
    + read_digits (Decimal.D0 (Decimal.D1 d)).
    + read_digits (Decimal.D0 (Decimal.D2 d)).
    + read_digits (Decimal.D0 (Decimal.D3 d)).
    + read_digits (Decimal.D0 (Decimal.D4 d)).
    + read_digits (Decimal.D0 (Decimal.D5 d)).
    + read_digits (Decimal.D0 (Decimal.D6 d)).
    + read_digits (Decimal.D0 (Decimal.D7 d)).
    + read_digits (Decimal.D0 (Decimal.D8 d)).
    + read_digits (Decimal.D0 (Decimal.D9 d)).
  - read_digits (Decimal.D1 d).
  - read_digits (Decimal.D2 d).
  - read_digits (Decimal.D3 d).
  - read_digits (Decimal.D4 d).
  - read_digits (Decimal.D5 d).
  - read_digits (Decimal.D6 d).
  - read_digits (Decimal.D7 d).
  - read_digits (Decimal.D8 d).
  - read_digits (Decimal.D9 d).
Qed.

Lemma parseInt_digits (n : Z) : 0 <= n -> JS.parseInt (JS.digits n) = Some n.
Proof.
  intros H. unfold JS.digits.
  pose proof (to_uint_nonnil (Z.to_N n)) as N.
  assert (S : NilZero.string_of_uint (N.to_uint (Z.to_N n))
              = NilEmpty.string_of_uint (N.to_uint (Z.to_N n))).
  { unfold NilZero.string_of_uint.
    destruct (N.to_uint (Z.to_N n)); [contradiction | reflexivity ..]. }
  rewrite S, parseInt_digits_uint by exact N.
  rewrite <- of_uint_value.
  change (Pos.of_uint (N.to_uint (Z.to_N n))) with (N.of_uint (N.to_uint (Z.to_N n))).
  rewrite DecimalN.Unsigned.of_to. f_equal. lia.
Qed.

Lemma digits_head (n : Z) :
  exists c rest,
    JS.digits n = String c rest
    /\ JS.is_whitespace c = false /\ c <> "-"%char /\ c <> "+"%char.
Proof.
  unfold JS.digits, NilZero.string_of_uint.
  pose proof (to_uint_nonnil (Z.to_N n)) as N.
  destruct (N.to_uint (Z.to_N n)); [contradiction | ..];
    cbn [NilEmpty.string_of_uint]; do 2 eexists;
    (split; [reflexivity |]); repeat split; discriminate.
Qed.

Lemma parseInt_after_sign (c : ascii) (rest : string) :
  JS.is_whitespace c = false -> c <> "-"%char -> c <> "+"%char ->
  JS.parseInt (String c rest)
  = match unsigned_value (String c rest) with
    | Some v => Some (1 * v)
    | None => None
    end
  /\ JS.parseInt (String "-" (String c rest))
     = match unsigned_value (String c rest) with
       | Some v => Some (-1 * v)
       | None => None
       end.
Proof.
  intros Hw Hm Hp.
  destruct c as [[] [] [] [] [] [] [] []];
    first [ vm_compute in Hw; discriminate Hw
          | contradiction
          | split; reflexivity
          | destruct rest as [| [[] [] [] [] [] [] [] []] rest2]; split; reflexivity ].
Qed.

Lemma parseInt_reads_of_int (n : Z) : JS.parseInt (JS.of_int n) = Some n.
Proof.
  unfold JS.of_int. destruct (Z.ltb_spec n 0) as [Hneg | Hpos].
  - pose proof (parseInt_digits (- n) ltac:(lia)) as P.
    destruct (digits_head (- n)) as (c & rest & E & Hw & Hm & Hp).
    change ("-" ++ JS.digits (- n)) with (String "-" (JS.digits (- n))).
    rewrite E in *.
    destruct (parseInt_after_sign c rest Hw Hm Hp) as [P1 P2].
    rewrite P1 in P. rewrite P2.
    destruct (unsigned_value (String c rest)) as [v |]; [| discriminate].
    inversion P. f_equal. lia.
  - now apply parseInt_digits.
Qed.

(** A whole number that a JavaScript number holds exactly, written as text
    and read back by [parseInt], is the number itself. *)
Theorem parseInt_of_int (n : Z) :
  safe (Some n) = true -> JS.parseInt (JS.of_int n) = Some n.
Proof. intros _. apply parseInt_reads_of_int. Qed.

Lemma parseInt_of_int_witness : JS.parseInt (JS.of_int (-640)) = Some (-640).
Proof. apply parseInt_of_int. reflexivity. Defined.

(** ** From the client's form to the server's parameters *)

Lemma of_int_truthy (n : Z) : truthy (Some (JS.of_int n)) = true.
Proof.
  unfold JS.of_int, truthy. destruct (n <? 0); [reflexivity |].
  destruct (digits_head n) as (c & rest & E & _). rewrite E. reflexivity.
Qed.

(** The client parses the slider's value before sending it, and the server
    resolves what arrives as it would have resolved the value itself; a value
    between 10 and 100, the slider's range, arrives unchanged. *)
Theorem sent_quality_resolves_alike (value : string) :
  safe (JS.parseInt value) = true ->
  qualityValue (Some (sent_quality value)) = qualityValue (Some value)
  /\ forall q, 10 <= q <= 100 -> JS.parseInt value = Some q ->
               qualityValue (Some (sent_quality value)) = q.
Proof.
  intros _.
  assert (A : qualityValue (Some (sent_quality value)) = qualityValue (Some value)).
  { unfold qualityValue, sent_quality.
    destruct (JS.parseInt value) as [n |] eqn:E.
    - now rewrite parseInt_reads_of_int.
    - reflexivity. }
  split; [exact A |].
  intros q Hq E. rewrite A. rewrite (qualityValue_clamped value q E) by lia. lia.
Qed.

Lemma sent_quality_resolves_alike_witness :
  qualityValue (Some (sent_quality "85")) = qualityValue (Some "85")
  /\ forall q, 10 <= q <= 100 -> JS.parseInt "85" = Some q ->
               qualityValue (Some (sent_quality "85")) = q.
Proof. apply (sent_quality_resolves_alike "85"). reflexivity. Defined.

(** What the server makes of a dimension field. *)
Lemma sent_dimension_read (value : string) :
  (if truthy (sent_dimension value)
   then Some (JS.parseInt (default "" (sent_dimension value)))
   else None)
  = match JS.parseInt value with
    | Some n => if n =? 0 then None else Some (Some n)
    | None => None
    end.
Proof.
  unfold sent_dimension.
  destruct (String.eqb value "") eqn:E.
  - apply String.eqb_eq in E. subst value. reflexivity.
  - destruct (JS.parseInt value) as [n |]; [| reflexivity].
    destruct (Z.eqb_spec n 0) as [-> | Hn]; [reflexivity |].
    assert (S : match n with 0 => None | _ => Some (JS.of_int n) end
                = Some (JS.of_int n)) by (destruct n; congruence).
    rewrite S, of_int_truthy.
    change (default "" (Some (JS.of_int n))) with (JS.of_int n).
    now rewrite parseInt_reads_of_int.
Qed.

(** A dimension reaches the server only as a whole number other than zero,
    the one the client parsed (a number that JavaScript holds exactly): an
    empty, unreadable or zero value is not sent and asks for no resize on
    that axis. *)
Theorem sent_dimension_is_parsed (w h : string) (b : CompressBody) :
  safe (JS.parseInt w) = true ->
  safe (JS.parseInt h) = true ->
  raw_width b = sent_dimension w ->
  raw_height b = sent_dimension h ->
  (resize_width (resizeOptions b)
   = match JS.parseInt w with
     | Some n => if n =? 0 then None else Some (Some n)
     | None => None
     end
   /\ resize_height (resizeOptions b)
      = match JS.parseInt h with
        | Some n => if n =? 0 then None else Some (Some n)
        | None => None
        end)
  /\ (resize_width (resizeOptions b) <> Some None
      /\ resize_width (resizeOptions b) <> Some (Some 0)
      /\ resize_height (resizeOptions b) <> Some None
      /\ resize_height (resizeOptions b) <> Some (Some 0)).
Proof.
  intros _ _ Hw Hh.
  assert (A : resize_width (resizeOptions b)
              = match JS.parseInt w with
                | Some n => if n =? 0 then None else Some (Some n)
                | None => None
                end).
  { unfold resizeOptions. cbn [resize_width]. rewrite Hw. apply sent_dimension_read. }
  assert (B : resize_height (resizeOptions b)
              = match JS.parseInt h with
                | Some n => if n =? 0 then None else Some (Some n)
                | None => None
                end).
  { unfold resizeOptions. cbn [resize_height]. rewrite Hh. apply sent_dimension_read. }
  split; [split; assumption |]. rewrite A, B.
  destruct (JS.parseInt w) as [n |], (JS.parseInt h) as [m |];
    try destruct (Z.eqb_spec n 0); try destruct (Z.eqb_spec m 0);
    repeat split; try discriminate;
    intros E; inversion E; contradiction.
Qed.

Lemma sent_dimension_is_parsed_witness :
  resize_width
    (resizeOptions
       (mkCompressBody None None (sent_dimension "640px") (sent_dimension "0") None))
  = Some (Some 640)
  /\ resize_height
       (resizeOptions
          (mkCompressBody None None (sent_dimension "640px") (sent_dimension "0") None))
     = None.
Proof.
  apply (sent_dimension_is_parsed "640px" "0"
           (mkCompressBody None None (sent_dimension "640px") (sent_dimension "0") None)
           eq_refl eq_refl eq_refl eq_refl).
Defined.

(** ** The encoder's options *)

Lemma pngQuality_bounds (q : Z) : 10 <= q <= 100 -> -1 <= pngQuality q <= 8.
Proof.
  intros H. unfold pngQuality.
  pose proof (Z.div_mod (- 100 * q) 1111 ltac:(lia)).
  pose proof (Z.mod_pos_bound (- 100 * q) 1111 ltac:(lia)). lia.
Qed.

Lemma pngQuality_antitone (q1 q2 : Z) : q1 <= q2 -> pngQuality q2 <= pngQuality q1.
Proof.
  intros H. unfold pngQuality.
  pose proof (Z.div_le_mono (- 100 * q2) (- 100 * q1) 1111 ltac:(lia) ltac:(lia)).
  lia.
Qed.

(** For PNG the quality becomes a compression level between 0 and 8 - level
    9 is never asked for - and a higher quality never gives a higher level. *)
Theorem png_level_of_quality (quality quality' : option string) :
  exists level level',
    encoder "png" (qualityValue quality) = png level
    /\ encoder "png" (qualityValue quality') = png level'
    /\ 0 <= level <= 8
    /\ (qualityValue quality <= qualityValue quality' -> level' <= level).
Proof.
  exists (Z.max 0 (Z.min 9 (pngQuality (qualityValue quality)))),
         (Z.max 0 (Z.min 9 (pngQuality (qualityValue quality')))).
  split; [reflexivity |]. split; [reflexivity |].
  pose proof (pngQuality_bounds _ (qualityValue_range quality)).
  split; [lia |].
  intros H'. pose proof (pngQuality_antitone _ _ H'). lia.
Qed.

(** The handler's [switch] never reaches its [default]: for a resolved format
    the encoder is the one of that format, with the resolved quality as it is
    for jpeg, webp and avif, and with mozjpeg for jpeg and jpg alike. *)
Theorem encoder_follows_format (format quality : option string) :
  let q := qualityValue quality in
  encoder (outputFormat format) q <> jpeg q false
  /\ (extension (outputFormat format) = "jpeg" ->
      encoder (outputFormat format) q = jpeg q true)
  /\ (outputFormat format = "png" ->
      encoder (outputFormat format) q = png (Z.max 0 (Z.min 9 (pngQuality q))))
  /\ (outputFormat format = "webp" -> encoder (outputFormat format) q = webp q)
  /\ (outputFormat format = "avif" -> encoder (outputFormat format) q = avif q).
Proof.
  intros q. clearbody q.
  pose proof (outputFormat_valid format) as H. cbn in H.
  destruct H as [H | [H | [H | [H | [H | []]]]]]; rewrite <- H;
    repeat split; try discriminate; try reflexivity.
Qed.

(** ** The pages of a listing *)

Lemma firstn_add_skipn {A : Type} (a b : nat) (l : list A) :
  firstn (a + b) l = (firstn a l ++ firstn b (skipn a l))%list.
Proof.
  revert l. induction a as [| a IH]; intros l; [reflexivity |].
  destruct l as [| x l]; cbn [Nat.add firstn skipn app].
  - now destruct b.
  - now rewrite IH.
Qed.

Lemma pages_concat {A : Type} (k n : nat) (l : list A) :
  concat (List.map (fun i => firstn k (skipn (i * k) l)) (seq 0 n))
  = firstn (n * k) l.
Proof.
  induction n as [| n IH]; [reflexivity |].
  rewrite seq_S, List.map_app, concat_app, IH. cbn [List.map concat Nat.add].
  rewrite app_nil_r, <- firstn_add_skipn. f_equal. lia.
Qed.

Lemma insert_sorted_length (le : CompressionHistory -> CompressionHistory -> bool)
    (x : string * CompressionHistory) (l : list (string * CompressionHistory)) :
  List.length (insert_sorted le x l) = S (List.length l).
Proof.
  induction l as [| y l IH]; [reflexivity |].
  cbn [insert_sorted]. destruct (le (snd x) (snd y)); cbn [List.length]; congruence.
Qed.

Lemma sort_length (sortBy : string) (sortOrder : Z)
    (l : list (string * CompressionHistory)) :
  List.length (sort sortBy sortOrder l) = List.length l.
Proof.
  unfold sort. induction l as [| x l IH]; [reflexivity |].
  cbn [List.fold_right]. rewrite insert_sorted_length. cbn [List.length]. congruence.
Qed.

Lemma page_documents_eq (user sortBy : string) (sortOrder page limit : Z) (st : State) :
  page_documents user sortBy sortOrder page limit st
  = firstn (Z.to_nat limit)
      (skipn (Z.to_nat ((page - 1) * limit))
         (sort sortBy sortOrder (owned user (history st)))).
Proof. reflexivity. Qed.

Lemma sort_is_the_arrangement (user sortBy : string) (sortOrder : Z) (st : State)
    (arrangement : list (string * CompressionHistory)) :
  sortBy <> "compressionRatio" ->
  distinct (List.map (fun d => sort_key sortBy (snd d)) (owned user (history st)))
  = true ->
  arrangement ≡ₚ owned user (history st) ->
  StronglySorted
    (fun x y => precedes sortBy sortOrder (snd x) (snd y) = true) arrangement ->
  sort sortBy sortOrder (owned user (history st)) = arrangement.
Proof.
  intros Hs Hd Hp Sa.
  apply (sorted_arrangement_unique sortBy sortOrder); try assumption.
  - apply (Permutation_NoDup
             (l := List.map (fun d => sort_key sortBy (snd d))
                     (owned user (history st)))).
    + apply Permutation_map. symmetry. apply sort_perm.
    + now apply distinct_NoDup.
  - rewrite sort_perm. now symmetry.
  - apply fold_insert_StronglySorted.
    + intros a b. unfold precedes.
      destruct (sortOrder =? 1); [| apply or_comm]; now apply key_le_total.
    + intros a b c. unfold precedes. destruct (sortOrder =? 1).
      * now apply key_le_trans.
      * intros H1 H2. exact (key_le_trans sortBy c b a Hs H2 H1).
Qed.

(** The pages of a listing on one of the three integer fields, taken in the
    same state with the same order and a positive limit, when no two of the
    requester's records have the same value in that field and the numbers
    involved are below 2^53: pages 1 to [pages] put end to end are the
    requester's records in that order - whatever arrangement in that order
    the database returns -, every page before the last is full, no page holds
    more than [limit] documents and a page after the last is empty; and the
    [history] array of a listing that passes validation is the page it
    names. *)
Theorem pages_partition_the_listing (user : Identity) (sortBy : string)
    (sortOrder limit : Z) (st : State) :
  0 < limit < 2 ^ 53 ->
  Z.of_nat (List.length (owned (jwt_userId user) (history st))) < 2 ^ 53 ->
  sortBy <> "compressionRatio" ->
  distinct (List.map (fun d => sort_key sortBy (snd d))
              (owned (jwt_userId user) (history st))) = true ->
  let total := Z.of_nat (List.length (owned (jwt_userId user) (history st))) in
  let pages := ceil_div total limit in
  let documents := fun p => page_documents (jwt_userId user) sortBy sortOrder p limit st in
  (forall arrangement,
     arrangement ≡ₚ owned (jwt_userId user) (history st) ->
     StronglySorted
       (fun x y => precedes sortBy sortOrder (snd x) (snd y) = true) arrangement ->
     concat (List.map (fun p => documents (Z.of_nat p)) (seq 1 (Z.to_nat pages)))
     = arrangement)
  /\ (forall p, 1 <= p < pages -> Z.of_nat (List.length (documents p)) = limit)
  /\ (forall p, 1 <= p -> (p - 1) * limit < 2 ^ 53 ->
                Z.of_nat (List.length (documents p)) <= limit)
  /\ (forall p, pages < p -> (p - 1) * limit < 2 ^ 53 -> documents p = [])
  /\ (forall q,
        sortBy_of q = sortBy -> sortOrder_of q = sortOrder -> limit_of q = limit ->
        safe (parseInt_param (raw_page q)) = true ->
        safe (parseInt_param (raw_limit q)) = true ->
        (page_of q - 1) * limit < 2 ^ 53 ->
        In sortBy validSortFields -> 1 <= page_of q ->
        field "history" (body (fst (getHistory q user st)))
        = Some (JArr (List.map history_json (documents (page_of q))))).
Proof.
  intros Hl _ Hs Hd total pages documents.
  pose proof (ceil_div_bounds total limit ltac:(lia)) as B. fold pages in B.
  assert (Hlen : List.length (sort sortBy sortOrder (owned (jwt_userId user) (history st)))
                 = Z.to_nat total).
  { rewrite sort_length. unfold total. now rewrite Nat2Z.id. }
  assert (Hp0 : 0 <= pages) by (unfold total in *; nia).
  split; [| split; [| split; [| split]]].
  - intros arrangement Hp Sa.
    rewrite <- (sort_is_the_arrangement (jwt_userId user) sortBy sortOrder st
                  arrangement Hs Hd Hp Sa).
    rewrite <- seq_shift, List.map_map.
    rewrite (List.map_ext _
               (fun i => firstn (Z.to_nat limit)
                           (skipn (i * Z.to_nat limit)
                              (sort sortBy sortOrder (owned (jwt_userId user) (history st)))))).
    + rewrite pages_concat. apply firstn_all2. rewrite Hlen. nia.
    + intros i. unfold documents. rewrite page_documents_eq. do 2 f_equal.
      replace (Z.of_nat (S i) - 1) with (Z.of_nat i) by lia.
      rewrite Z2Nat.inj_mul by lia. now rewrite Nat2Z.id.
  - intros p Hp. unfold documents. rewrite page_documents_eq.
    rewrite length_firstn, length_skipn, Hlen. nia.
  - intros p Hp _. unfold documents. rewrite page_documents_eq.
    rewrite length_firstn. lia.
  - intros p Hp _. unfold documents. rewrite page_documents_eq.
    rewrite skipn_all2; [now rewrite firstn_nil |]. rewrite Hlen. nia.
  - intros q Hsb Hso Hlim _ _ _ Hvalid Hpage. subst sortBy sortOrder limit.
    unfold getHistory, try_catch.
    apply includes_In in Hvalid. rewrite Hvalid. cbn [negb].
    replace ((page_of q <? 1) || (limit_of q <? 1)) with false
      by (symmetry; apply orb_false_iff; rewrite !Z.ltb_ge; lia).
    reflexivity.
Qed.

(** The theorem at alice's three records, newest first, two to the page: the
    two pages put end to end hold the records of the times 5003, 5002 and
    5001, which the collection holds in the order 5002, 5001, 5003. *)
Lemma pages_partition_the_listing_witness :
  ceil_div (Z.of_nat (List.length (owned "a11ce" (history Reference.three_records)))) 2
  = 2
  /\ List.map (fun d => createdAt (snd d))
       (owned "a11ce" (history Reference.three_records))
     = [5002; 5001; 5003]
  /\ List.map (fun d => createdAt (snd d))
       (concat (List.map
                  (fun p => page_documents "a11ce" "createdAt" (-1) (Z.of_nat p) 2
                              Reference.three_records)
                  (seq 1 2)))
     = [5003; 5002; 5001]
  /\ forall arrangement,
       arrangement ≡ₚ owned "a11ce" (history Reference.three_records) ->
       StronglySorted
         (fun x y => precedes "createdAt" (-1) (snd x) (snd y) = true) arrangement ->
       concat (List.map
                 (fun p => page_documents "a11ce" "createdAt" (-1) (Z.of_nat p) 2
                             Reference.three_records)
                 (seq 1 2))
       = arrangement.
Proof.
  split; [vm_compute; reflexivity |].
  split; [vm_compute; reflexivity |].
  split; [vm_compute; reflexivity |].
  apply (pages_partition_the_listing Reference.alice "createdAt" (-1) 2
           Reference.three_records).
  - lia.
  - vm_compute. reflexivity.
  - discriminate.
  - vm_compute. reflexivity.
Defined.

(** ** Counters and records *)

Lemma owned_insert (id k : string) (r : CompressionHistory)
    (h : gmap string CompressionHistory) :
  h !! k = None ->
  owned id (<[k := r]> h)
  ≡ₚ (if String.eqb (userId r) id then (k, r) :: owned id h else owned id h).
Proof.
  intros Hk. unfold owned.
  pose proof (map_to_list_insert h k r Hk) as P.
  assert (F : forall (f : string * CompressionHistory -> bool) l l',
             l ≡ₚ l' -> List.filter f l ≡ₚ List.filter f l').
  { intros f l l' Hp. induction Hp as [| x l l' Hp IH | x y l | l l' l'' _ IH1 _ IH2].
    - constructor.
    - cbn [List.filter]. destruct (f x); [now constructor | exact IH].
    - cbn [List.filter]. destruct (f x), (f y); try reflexivity. constructor.
    - now transitivity (List.filter f l'). }
  rewrite (F _ _ _ P). cbn [List.filter].
  destruct (String.eqb (userId r) id); reflexivity.
Qed.

Lemma sum_field_perm (f : CompressionHistory -> Z)
    (l l' : list (string * CompressionHistory)) :
  l ≡ₚ l' -> sum_field f l = sum_field f l'.
Proof.
  unfold sum_field.
  induction 1 as [| x l l' _ IH | x y l | l l' l'' _ IH1 _ IH2];
    cbn [List.fold_right]; lia.
Qed.

Lemma owned_delete (id k : string) (r : CompressionHistory)
    (h : gmap string CompressionHistory) :
  h !! k = Some r ->
  (if String.eqb (userId r) id then (k, r) :: owned id (delete k h)
   else owned id (delete k h))
  ≡ₚ owned id h.
Proof.
  intros Hk. rewrite <- (insert_delete_id h k r Hk) at 3.
  symmetry. apply owned_insert, lookup_delete_eq.
Qed.

Section Counters.

Context {SH : Sharp} {OI : ObjectIds}.

(** What a compression request does to the two collections: nothing, or one
    record more and the owner's counters moved. *)
Lemma compress_collections (req : CompressRequest) (rnd : Fresh) (st : State) :
  (users (snd (compress req rnd st)) = users st
   /\ history (snd (compress req rnd st)) = history st)
  \/ exists user r,
       req_user req = Some user
       /\ userId r = jwt_userId user
       /\ history st !! objectId rnd = None
       /\ history (snd (compress req rnd st)) = <[objectId rnd := r]> (history st)
       /\ users (snd (compress req rnd st))
          = alter (inc_stats (originalSize r - compressedSize r) (now rnd))
                  (jwt_userId user) (users st).
Proof.
  unfold compress, try_catch, compress_body.
  destruct (req_file req) as [file |]; [| left; split; reflexivity].
  unfold bind, await.
  destruct (encode file (req_body req)) as [[[meta cd] buf] | msg];
    [| left; split; reflexivity].
  destruct (toFile _ _) as [written | msg]; [| left; split; reflexivity].
  unfold writeFile, modify.
  destruct (req_user req) as [user |]; [| left; split; reflexivity].
  unfold save, findByIdAndUpdate, modify, ret. cbn [history uploads users].
  destruct (history st !! objectId rnd) eqn:E; [left; split; reflexivity |].
  right. eexists user, _. cbn [snd users history].
  split; [reflexivity |]. split; [| split; [reflexivity |]; split; reflexivity].
  reflexivity.
Qed.

(** Compression keeps the counters in step with the records, whatever the
    request and its outcome: if every user's [totalCompressions] and
    [totalSizeSaved] are the number of that user's records and the bytes they
    saved before the request, they are so after it. *)
Theorem compress_keeps_counters_in_step (req : CompressRequest) (rnd : Fresh)
    (st : State) :
  in_step st -> in_step (snd (compress req rnd st)).
Proof.
  intros Hin.
  destruct (compress_collections req rnd st)
    as [[Hu Hh] | (user & r & _ & Hr & Hfresh & Hh & Hu)];
    unfold in_step, counted, saved in *; rewrite Hu, Hh.
  - exact Hin.
  - intros id u' Hl.
    pose proof (owned_insert id (objectId rnd) r (history st) Hfresh) as P.
    rewrite (Permutation_length P).
    rewrite (sum_field_perm originalSize _ _ P), (sum_field_perm compressedSize _ _ P).
    destruct (decide (jwt_userId user = id)) as [<- | Hne].
    + rewrite lookup_alter_eq in Hl.
      destruct (users st !! jwt_userId user) as [u |] eqn:Eu; [| discriminate].
      cbn in Hl. inversion Hl; subst u'. clear Hl.
      destruct (Hin _ _ Eu) as [Hc Hs].
      rewrite Hr, String.eqb_refl.
      cbn [inc_stats compressionStats totalCompressions totalSizeSaved
             List.length sum_field List.fold_right snd].
      fold (sum_field originalSize (owned (jwt_userId user) (history st))).
      fold (sum_field compressedSize (owned (jwt_userId user) (history st))).
      rewrite Hc, Hs. lia.
    + rewrite lookup_alter_ne in Hl by exact Hne.
      rewrite Hr. apply String.eqb_neq in Hne. rewrite Hne.
      exact (Hin _ _ Hl).
Qed.

(** A compression followed by the deletion of its record: with a name for
    the artifact that was free, the records and the uploads are as they were
    before the upload, but the counters are not rolled back, so that they
    are no longer in step with the records if they were. *)
Theorem compress_then_delete (req : CompressRequest) (rnd : Fresh) (st : State)
    (user : Identity) :
  req_user req = Some user ->
  status (fst (compress req rnd st)) = 200 ->
  uploads st !! target req rnd = None ->
  let st' := snd (compress req rnd st) in
  let st'' := snd (deleteRecord (objectId rnd) user st') in
  fst (deleteRecord (objectId rnd) user st') = record_deleted
  /\ history st'' = history st
  /\ uploads st'' = uploads st
  /\ users st'' = users st'
  /\ (forall u,
        users st !! jwt_userId user = Some u ->
        exists u',
          users st'' !! jwt_userId user = Some u'
          /\ totalCompressions (compressionStats u')
             = totalCompressions (compressionStats u) + 1
          /\ (in_step st -> ~ in_step st'')).
Proof.
  intros Hu Hs Hfree st' st''.
  destruct (compress_success req rnd st st' (fst (compress req rnd st))
              (surjective_pairing _) Hs)
    as (file & meta & cd & buf & written & Hf & He & Ht & Hup & _ & Hrec).
  rewrite Hu in Hrec. destruct Hrec as (Hfresh & Hh & Husers).
  assert (Hl : history st' !! objectId rnd
               = Some (record_of req rnd user file meta cd buf))
    by (rewrite Hh; apply lookup_insert_eq).
  pose proof (deleteRecord_owned (objectId rnd) user st' _ Hl eq_refl) as D.
  assert (Hh'' : history st'' = history st).
  { unfold st''. rewrite D. cbn [snd history]. rewrite Hh.
    rewrite delete_insert_eq. now apply delete_id. }
  assert (Hu'' : users st'' = users st') by (unfold st''; now rewrite D).
  split; [now rewrite D |]. split; [exact Hh'' |]. split; [| split; [exact Hu'' |]].
  - unfold st''. rewrite D. cbn [snd uploads].
    change (compressedFilename (record_of req rnd user file meta cd buf))
      with (target req rnd).
    rewrite Hup, delete_insert_eq. now apply delete_id.
  - intros u Hlu.
    exists (inc_stats (size file - Z.of_nat (List.length buf)) (now rnd) u).
    split; [| split].
    + rewrite Hu'', Husers, lookup_alter_eq, Hlu. reflexivity.
    + reflexivity.
    + intros Hin Hin''.
      destruct (Hin _ _ Hlu) as [Hc _].
      assert (Hlu'' : users st'' !! jwt_userId user
                      = Some (inc_stats (size file - Z.of_nat (List.length buf))
                                        (now rnd) u))
        by (rewrite Hu'', Husers, lookup_alter_eq, Hlu; reflexivity).
      destruct (Hin'' _ _ Hlu'') as [Hc'' _].
      unfold counted in Hc, Hc''. rewrite Hh'' in Hc''.
      cbn [inc_stats compressionStats totalCompressions] in Hc''. lia.
Qed.

End Counters.

(** The invariant at alice's request on the small codec, from a state
    without records. *)
Lemma compress_keeps_counters_in_step_witness :
  in_step Reference.empty
  /\ in_step (snd (compress (SH := Reference.codec) Reference.alice_png
                     Reference.draw Reference.empty)).
Proof.
  assert (H : in_step Reference.empty).
  { intros id u Hl. unfold counted, saved. cbn [Reference.empty history].
    unfold owned. rewrite map_to_list_empty. cbn.
    unfold Reference.empty in Hl. cbn [users] in Hl.
    destruct (decide (id = "a11ce")) as [-> | Ha].
    - rewrite lookup_insert_eq in Hl. inversion Hl; subst. split; reflexivity.
    - rewrite lookup_insert_ne in Hl by congruence.
      destruct (decide (id = "b0b")) as [-> | Hb].
      + rewrite lookup_insert_eq in Hl. inversion Hl; subst. split; reflexivity.
      + rewrite lookup_insert_ne in Hl by congruence.
        rewrite lookup_empty in Hl. discriminate. }
  split; [exact H |].
  apply (compress_keeps_counters_in_step (SH := Reference.codec)
           Reference.alice_png Reference.draw Reference.empty H).
Defined.

(** The round trip at alice's request on the small codec. *)
Lemma compress_then_delete_witness :
  history (snd (deleteRecord (OI := Reference.objectIds) "65aa01b2c3d4e5f6a7b8c9d0"
                  Reference.alice Reference.after_alice))
  = history Reference.empty
  /\ uploads (snd (deleteRecord (OI := Reference.objectIds) "65aa01b2c3d4e5f6a7b8c9d0"
                     Reference.alice Reference.after_alice))
     = uploads Reference.empty.
Proof.
  destruct (compress_then_delete (SH := Reference.codec) (OI := Reference.objectIds)
              Reference.alice_png
              Reference.draw Reference.empty Reference.alice
              eq_refl eq_refl eq_refl)
    as (_ & Hh & Hu & _).
  split; assumption.
Defined.

(** ** Statistics *)

Lemma sum_field_sub (f g : CompressionHistory -> Z)
    (docs : list (string * CompressionHistory)) :
  sum_field (fun r => f r - g r) docs = sum_field f docs - sum_field g docs.
Proof.
  unfold sum_field. induction docs as [| d docs IH]; cbn [List.fold_right]; lia.
Qed.

(** The statistics of a user count that user's records only and never change
    the state: a requester without a user document is answered 404; any
    other is answered 200 with the number of the requester's records (the
    [total] of the listing), the sums of their sizes, their difference as
    [totalSizeSaved], and the counters of the user document as [userStats];
    when the counters are in step with the records, the two pairs of totals
    in the response are equal. *)
Theorem stats_count_own_records (avg : list float -> float) (user : Identity)
    (st : State) :
  snd (getStats avg user st) = st
  /\ (users st !! jwt_userId user = None ->
      fst (getStats avg user st)
      = res_status_json 404 (JObj [("error", JStr "User not found")]))
  /\ (forall u,
        users st !! jwt_userId user = Some u ->
        exists stats,
          fst (getStats avg user st)
          = res_json (JObj [("success", JBool true); ("stats", stats)])
          /\ field "totalCompressions" stats
             = Some (JNum (counted (jwt_userId user) st))
          /\ field "totalOriginalSize" stats
             = Some (JNum (sum_field originalSize
                             (owned (jwt_userId user) (history st))))
          /\ field "totalCompressedSize" stats
             = Some (JNum (sum_field compressedSize
                             (owned (jwt_userId user) (history st))))
          /\ field "totalSizeSaved" stats = Some (JNum (saved (jwt_userId user) st))
          /\ field "userStats" stats = Some (stats_json (compressionStats u))
          /\ (in_step st ->
              field "totalCompressions" stats
              = field "totalCompressions" (stats_json (compressionStats u))
              /\ field "totalSizeSaved" stats
                 = field "totalSizeSaved" (stats_json (compressionStats u)))).
Proof.
  unfold getStats, try_catch, bind, findById, aggregate, gets, ret, counted, saved.
  destruct (users st !! jwt_userId user) as [u0 |] eqn:Eu.
  - split; [reflexivity |]. split; [discriminate |].
    intros u Hu. inversion Hu; subst u0. clear Hu.
    eexists. split; [reflexivity |].
    assert (T : in_step st ->
                totalCompressions (compressionStats u)
                = Z.of_nat (List.length (owned (jwt_userId user) (history st)))
                /\ totalSizeSaved (compressionStats u)
                   = sum_field originalSize (owned (jwt_userId user) (history st))
                     - sum_field compressedSize (owned (jwt_userId user) (history st)))
      by (intros Hin; exact (Hin _ _ Eu)).
    destruct (owned (jwt_userId user) (history st)) as [| d docs];
      (split; [reflexivity |]); (split; [reflexivity |]); (split; [reflexivity |]);
      (split; [reflexivity |]); (split; [reflexivity |]);
      intros Hin; destruct (T Hin) as [Hc Hs];
      unfold stats_json; cbn [field assoc app String.eqb Ascii.eqb Bool.eqb
                                group_totalCompressions group_totalOriginalSize
                                group_totalCompressedSize];
      rewrite Hc, Hs; split; reflexivity.
  - split; [reflexivity |]. split; [reflexivity |]. discriminate.
Qed.

(** The administrator's statistics are given on the role stored in the user
    document, not on the role the token carries: the request is answered
    200 exactly when the requester's document has the role [admin], 403
    exactly when it has another role, and 500 exactly when there is no such
    document; the state is never changed; and the 200 response counts all
    users and all records, its [totalStorageUsed] and [totalSpaceSaved]
    adding up to the original bytes of all records. *)
Theorem admin_needs_the_stored_role (user : Identity) (st : State) :
  snd (adminStats user st) = st
  /\ (status (fst (adminStats user st)) = 200
      <-> exists u, users st !! jwt_userId user = Some u /\ role u = "admin")
  /\ (status (fst (adminStats user st)) = 403
      <-> exists u, users st !! jwt_userId user = Some u /\ role u <> "admin")
  /\ (status (fst (adminStats user st)) = 500
      <-> users st !! jwt_userId user = None)
  /\ (status (fst (adminStats user st)) = 200 ->
      exists storage used spared,
        body (fst (adminStats user st))
        = JObj [("success", JBool true);
                ("stats",
                 JObj [("totalUsers",
                        JNum (Z.of_nat (List.length (map_to_list (users st)))));
                       ("totalCompressions",
                        JNum (Z.of_nat (List.length (map_to_list (history st)))));
                       ("storage", storage)])]
        /\ field "totalStorageUsed" storage = Some (JNum used)
        /\ field "totalSpaceSaved" storage = Some (JNum spared)
        /\ used + spared = sum_field originalSize (map_to_list (history st))).
Proof.
  unfold adminStats, try_catch, bind, findById, storageStats, await, gets, ret.
  destruct (users st !! jwt_userId user) as [u |] eqn:Eu.
  - destruct (String.eqb (role u) "admin") eqn:Er; cbn [negb fst snd status
      res_json res_status_json body].
    + apply String.eqb_eq in Er.
      split; [reflexivity |]. split; [| split; [| split]].
      * split; [intros _; eauto | reflexivity].
      * split; [discriminate |]. intros (u' & Hu' & Hr). congruence.
      * split; discriminate.
      * intros _.
        pose proof (sum_field_sub originalSize compressedSize
                      (map_to_list (history st))) as S.
        destruct (map_to_list (history st)) as [| d docs] eqn:Em.
        -- exists (JObj [("totalStorageUsed", JNum 0); ("totalSpaceSaved", JNum 0)]), 0, 0.
           repeat split; reflexivity.
        -- eexists _, _, _. split; [reflexivity |].
           split; [reflexivity |]. split; [reflexivity |].
           rewrite S. lia.
    + apply String.eqb_neq in Er.
      split; [reflexivity |]. split; [| split; [| split]].
      * split; [discriminate |]. intros (u' & Hu' & Hr). congruence.
      * split; [intros _; eauto | reflexivity].
      * split; discriminate.
      * discriminate.
  - cbn [fst snd status res_status_json].
    split; [reflexivity |]. split; [| split; [| split]].
    + split; [discriminate |]. intros (u' & Hu' & _). discriminate.
    + split; [discriminate |]. intros (u' & Hu' & _). discriminate.
    + split; reflexivity.
    + discriminate.
Qed.

(** ** Cleanup and the records of others *)

(** Cleanup by file name removes at most one record, one that the requester
    owns under that file name; every record of another user, and every record
    under another file name, is still there afterwards, whether the answer is
    200 or 404. *)
Theorem cleanup_spares_other_records (filename : string) (user : Identity)
    (st : State) :
  (history (snd (cleanup filename user st)) = history st
   \/ exists id' r',
        history st !! id' = Some r'
        /\ userId r' = jwt_userId user
        /\ compressedFilename r' = filename
        /\ history (snd (cleanup filename user st)) = delete id' (history st))
  /\ (forall id r,
        history st !! id = Some r ->
        userId r <> jwt_userId user \/ compressedFilename r <> filename ->
        history (snd (cleanup filename user st)) !! id = Some r).
Proof.
  assert (H : history (snd (cleanup filename user st))
              = without_matching filename (jwt_userId user) (history st)).
  { destruct (uploads st !! filename) as [data |] eqn:E.
    - now rewrite (cleanup_file_present filename user st data E).
    - now rewrite (cleanup_file_missing filename user st E). }
  rewrite H. unfold without_matching.
  destruct (matching filename (jwt_userId user) (history st)) as [[id' r'] |] eqn:M.
  - apply matching_Some in M as (Hr' & Hf' & Hu'). split.
    + right. exists id', r'. repeat split; assumption.
    + intros id r Hr Hother.
      rewrite lookup_delete_ne; [exact Hr |].
      intros ->. rewrite Hr' in Hr. inversion Hr; subst r'.
      destruct Hother as [Ho | Ho]; contradiction.
  - split; [now left | now intros id r Hr _].
Qed.
